(** * nft-ui/lib/zknft/index.ts: the marketplace client helpers

    A shallow embedding of the browser-side helper module: local-storage
    access, the identity key, the three HTTP wrappers and the menu.
    Asynchronous functions are sequential here: every [await] is a bind of
    the state-and-exception monad [JS], and a rejected promise is a thrown
    exception.  Whatever the module imports (JSON, typed arrays, web3-utils,
    the Ed25519 library, fetch) is either written out where its behaviour
    on the module's inputs is fixed, or a field of [Platform]. *)

From Stdlib Require Import ZArith String Ascii List Lia.
From Stdlib Require Import Decimal DecimalString DecimalN.
From stdpp Require Import base option list gmap strings.

Local Open Scope string_scope.
Local Open Scope Z_scope.
Local Open Scope list_scope.
Local Set Warnings "-register-all".

(** ** JavaScript data *)

(** JSON-shaped run-time values.  Numbers are restricted to the integers,
    which is all this module produces or stores (bytes and the price). *)
Inductive jsval : Type :=
  | JNull
  | JBool (b : bool)
  | JNum (n : Z)
  | JStr (s : string)
  | JArr (l : list jsval)
  | JObj (o : gmap string jsval).

(** The contents of a [Uint8Array]: every element is in [0, 256). *)
Abbreviation bytes := (list Z).

(** What a [catch] clause receives. *)
Inductive exn : Type :=
  | TypeError (msg : string)
  | SyntaxError (msg : string)
  | RangeError (msg : string)
  | DOMException (msg : string)
  | Error (msg : string).

(** Normal or abrupt completion of a call. *)
Inductive result (A : Type) : Type :=
  | Ok (a : A)
  | Throw (e : exn).
Arguments Ok {A} a.
Arguments Throw {A} e.

(** ** The state-and-exception monad of the module

    A computation reads and updates the browser state and either returns
    or throws; what it changed before throwing stays changed. *)

Section Monad.
Context {St : Type}.

Definition JSM (A : Type) : Type := St -> result A * St.

Definition ret {A} (a : A) : JSM A := fun s => (Ok a, s).

Definition bind {A B} (m : JSM A) (k : A -> JSM B) : JSM B :=
  fun s => match m s with
           | (Ok a, s') => k a s'
           | (Throw e, s') => (Throw e, s')
           end.

(** A synchronous library call: no effect on the browser state. *)
Definition lift {A} (r : result A) : JSM A := fun s => (r, s).

(** [try { body } catch (e) { handler e }] *)
Definition try_catch {A} (body : JSM A) (handler : exn -> JSM A) : JSM A :=
  fun s => match body s with
           | (Ok a, s') => (Ok a, s')
           | (Throw e, s') => handler e s'
           end.

Definition modify (f : St -> St) : JSM unit := fun s => (Ok tt, f s).
End Monad.
Arguments JSM : clear implicits.

Declare Scope js_scope.
Delimit Scope js_scope with js.
Notation "'let!' x ':=' m 'in' k" := (bind m (fun x => k))
  (at level 10, x name, m at level 100, k at level 200,
   format "'[v' 'let!'  x  ':='  m  'in' '/' k ']'") : js_scope.
Notation "m ';;;' k" := (bind m (fun _ => k))
  (at level 100, k at level 200, right associativity,
   format "'[v' m  ';;;' '/' k ']'") : js_scope.
Local Open Scope js_scope.

(** ** Byte arrays and their encodings (typed arrays, web3-utils) *)

(** Storing a number into a [Uint8Array] keeps it modulo 256. *)
Definition ToUint8 (n : Z) : Z := n mod 256.

(** [Uint8Array.from(numbers)] *)
Definition Uint8Array_from (numbers : list Z) : bytes := map ToUint8 numbers.

(** [Array.from(typedArray)]: a plain array of numbers. *)
Definition Array_from (b : bytes) : jsval := JArr (map JNum b).

(** The values an element of a [Uint8Array] can have. *)
Definition is_byte (n : Z) : Prop := 0 <= n < 256.

(** The lower-case hexadecimal digit of a number below 16. *)
Definition hex_digit (n : Z) : ascii :=
  nth (Z.to_nat n) (list_ascii_of_string "0123456789abcdef") "0"%char.

(** [e.toString(16)] for an element of a byte array. *)
Definition toString16 (e : Z) : string :=
  if e <? 16 then String (hex_digit e) ""
  else String (hex_digit (e / 16)) (String (hex_digit (e mod 16)) "").

(** web3-utils [bytesToHex]: ["0x"], then two hexadecimal digits for each
    byte, first byte first. *)
Definition bytesToHex (b : bytes) : string :=
  fold_left
    (fun hexString e =>
       let hex := toString16 e in
       hexString +:+ (if Nat.eqb (String.length hex) 1 then "0" +:+ hex else hex))
    b "0x".

Definition hex_digit_value (c : ascii) : option N :=
  let n := N_of_ascii c in
  if ((48 <=? n) && (n <=? 57))%N then Some (n - 48)%N
  else if ((97 <=? n) && (n <=? 102))%N then Some (n - 87)%N
  else if ((65 <=? n) && (n <=? 70))%N then Some (n - 55)%N
  else None.

(** The number a string of hexadecimal digits denotes, most significant
    digit first; [None] when some character is not a digit. *)
Fixpoint hex_value_from (acc : N) (digits : string) : option N :=
  match digits with
  | EmptyString => Some acc
  | String c rest =>
      match hex_digit_value c with
      | Some d => hex_value_from (16 * acc + d)%N rest
      | None => None
      end
  end.

(** [BigInt.prototype.toString()], also [Number.prototype.toString()] on
    the non-negative safe integers. *)
Definition decimal (n : N) : string := NilEmpty.string_of_uint (N.to_uint n).

(** ** The browser: local storage, console, network *)

(** [localStorage]: its entries, and whether its accessors throw (storage
    blocked or absent, quota exceeded). *)
Record Storage : Type := {
  items : gmap string string;
  getItem_throws : option exn;
  setItem_throws : option exn;
}.

(** One argument of a [console.log] or [console.error] call. *)
Inductive logged : Type :=
  | LStr (s : string)
  | LNum (n : Z)
  | LBytes (b : bytes)
  | LVal (v : jsval)
  | LExn (e : exn).

Inductive console_entry : Type :=
  | ConsoleLog (args : list logged)
  | ConsoleError (args : list logged).

(** The argument of [fetch]. *)
Record request : Type := {
  url : string;
  method : string;
  headers : list (string * string);
  body : option string;
  cache : string;
}.

(** What [fetch] resolves to: the status, and what [response.json()]
    resolves to or throws. *)
Record response : Type := {
  status : Z;
  json : result jsval;
}.

(** [response.ok]: the status is in the range 200-299. *)
Definition ok (r : response) : bool := (200 <=? status r) && (status r <=? 299).

Record state : Type := {
  localStorage : Storage;
  draws : nat;                    (* random keys drawn so far *)
  console : list console_entry;   (* oldest first *)
  network : list request;         (* requests issued so far, oldest first *)
}.

Abbreviation JS := (JSM state).

Definition set_items (f : gmap string string -> gmap string string) (s : state) : state :=
  {| localStorage :=
       {| items := f (items (localStorage s));
          getItem_throws := getItem_throws (localStorage s);
          setItem_throws := setItem_throws (localStorage s) |};
     draws := draws s; console := console s; network := network s |}.

Definition next_draw (s : state) : state :=
  {| localStorage := localStorage s; draws := S (draws s);
     console := console s; network := network s |}.

Definition print (e : console_entry) (s : state) : state :=
  {| localStorage := localStorage s; draws := draws s;
     console := console s ++ [e]; network := network s |}.

Definition issue (r : request) (s : state) : state :=
  {| localStorage := localStorage s; draws := draws s;
     console := console s; network := network s ++ [r] |}.

(** A listing as the interface shows it: a JavaScript object. *)
Abbreviation NFT := (gmap string jsval).

(** The body of a purchase request. *)
Record BuyNftQuery : Type := {
  nft_id : string;
  payment_sender : string;
  nft_receiver : string;
}.

Definition BuyNftQuery_object (q : BuyNftQuery) : jsval :=
  JObj (<["nft_receiver" := JStr (nft_receiver q)]>
          (<["payment_sender" := JStr (payment_sender q)]>
             (<["nft_id" := JStr (nft_id q)]> ∅))).

Record Menu : Type := {
  title : string;
  path : string;
}.

(** What lies outside the module: the JSON codec, the Ed25519 library, the
    typed-array constructor and web3-utils away from the inputs the module
    feeds them, and the server behind [fetch]. *)
Class Platform : Type := {
  (** [JSON.parse]; throws a [SyntaxError] on malformed text. *)
  JSON_parse : string -> result jsval;
  (** [JSON.stringify], total on JSON-shaped values. *)
  JSON_stringify : jsval -> string;
  (** [new Uint8Array(v)] when [v] is not an array of numbers. *)
  Uint8Array_other : jsval -> result bytes;
  (** [ed.utils.randomPrivateKey()]: the outcome of the n-th draw. *)
  randomPrivateKey : nat -> result bytes;
  (** [ed.getPublicKeyAsync(privateKey)] *)
  getPublicKeyAsync : bytes -> result bytes;
  (** [hexToNumberString] on anything but ["0x"] followed by at least one
      hexadecimal digit. *)
  hexToNumberString_other : string -> result string;
  (** The outcome of a [fetch], given the requests issued before it:
      a response, or a rejection. *)
  fetch_outcome : list request -> request -> result response;
}.

Section Zknft.
Context `{Platform}.

(** *** Library calls *)

Definition numbers_of (l : list jsval) : option (list Z) :=
  mapM (fun v => match v with JNum n => Some n | _ => None end) l.

(** [new Uint8Array(v)]: from an array of numbers, its elements modulo
    256. *)
Definition new_Uint8Array (v : jsval) : result bytes :=
  match v with
  | JArr l =>
      match numbers_of l with
      | Some ns => Ok (map ToUint8 ns)
      | None => Uint8Array_other v
      end
  | _ => Uint8Array_other v
  end.

(** web3-utils [hexToNumberString]: the decimal form of the integer that
    a 0x-prefixed hexadecimal string denotes. *)
Definition hexToNumberString (value : string) : result string :=
  match value with
  | String "0" (String "x" (String c digits)) =>
      match hex_value_from 0 (String c digits) with
      | Some n => Ok (decimal n)
      | None => hexToNumberString_other value
      end
  | _ => hexToNumberString_other value
  end.

Definition console_log (args : list logged) : JS unit :=
  modify (print (ConsoleLog args)).

Definition console_error (args : list logged) : JS unit :=
  modify (print (ConsoleError args)).

Definition localStorage_getItem (key : string) : JS (option string) :=
  fun s => match getItem_throws (localStorage s) with
           | Some e => (Throw e, s)
           | None => (Ok (items (localStorage s) !! key), s)
           end.

Definition localStorage_setItem (key value : string) : JS unit :=
  fun s => match setItem_throws (localStorage s) with
           | Some e => (Throw e, s)
           | None => (Ok tt, set_items (insert key value) s)
           end.

Definition ed_utils_randomPrivateKey : JS bytes :=
  fun s => (randomPrivateKey (draws s), next_draw s).

Definition fetch (r : request) : JS response :=
  fun s => (fetch_outcome (network s) r, issue r s).

(** The property name of an array index. *)
Definition index_key (i : nat) : string := NilEmpty.string_of_uint (Nat.to_uint i).

Definition indexed (l : list jsval) : gmap string jsval :=
  list_to_map (imap (fun i v => (index_key i, v)) l).

(** The one-character strings of a string (of ASCII characters). *)
Definition characters (s : string) : list jsval :=
  map (fun c => JStr (String c "")) (list_ascii_of_string s).

(** [{...v}]: the own enumerable properties of [v]. *)
Definition spread (v : jsval) : gmap string jsval :=
  match v with
  | JObj o => o
  | JArr l => indexed l
  | JStr s => indexed (characters s)
  | _ => ∅
  end.

(** What [for (const x of v)] iterates over. *)
Definition iterate (v : jsval) : result (list jsval) :=
  match v with
  | JArr l => Ok l
  | JStr s => Ok (characters s)
  | _ => Throw (TypeError "jsonData is not iterable")
  end.

(** *** The module *)

Definition setLocalStorage (key : string) (value : jsval) : JS unit :=
  try_catch
    (localStorage_setItem key (JSON_stringify value))
    (fun error =>
       console_error [LStr "Error storing data in localStorage:"; LExn error]).

Definition getLocalStorage (key : string) : JS jsval :=
  try_catch
    (let! storedValue := localStorage_getItem key in
     match storedValue with
     | Some (String _ _ as text) => lift (JSON_parse text)
     | _ => ret JNull
     end)
    (fun error =>
       console_error [LStr "Error retrieving data from localStorage:"; LExn error];;;
       ret JNull).

Definition getPrivateKey : JS bytes :=
  let! seed := getLocalStorage "my-private-key" in
  match seed with
  | JNull =>
      let! privKey := ed_utils_randomPrivateKey in
      setLocalStorage "my-private-key" (Array_from privKey);;;
      let! publicKey := lift (getPublicKeyAsync privKey) in
      console_log [LBytes publicKey];;;
      ret privKey
  | _ => lift (new_Uint8Array seed)
  end.

(** The [for ... of] loop of [getForSaleNFTs], pushing onto
    [nfts_to_return]. *)
Fixpoint push_listings (jsonData : list jsval) (nfts_to_return : list NFT) : list NFT :=
  match jsonData with
  | [] => nfts_to_return
  | nft :: rest =>
      push_listings rest
        (nfts_to_return ++
           [<["currency_symbol" := JStr "PVL"]> (<["price" := JNum 10]> (spread nft))])
  end.

Definition getForSaleNFTs : JS (list NFT) :=
  console_log [LStr "get for sale called."];;;
  let url := "http://127.0.0.1:7000/listed-nfts/" in
  try_catch
    (let! response := fetch {| url := url; method := "GET"; headers := [];
                               body := None; cache := "no-store" |} in
     if ok response then
       let! jsonData := lift (json response) in
       let! elements := lift (iterate jsonData) in
       let nfts_to_return := push_listings elements [] in
       console_log [LNum (Z.of_nat (length nfts_to_return))];;;
       ret nfts_to_return
     else
       console_error [LStr "Request failed with status:"; LNum (status response)];;;
       ret [])
    (fun error =>
       console_error [LStr "Error in fetch:"; LExn error];;;
       ret []).

(** Lines 91-99 of [buyNFT]: the identity key, its public key, and the
    query object built from them. *)
Definition buyNftQuery (paymentSender : string) (nftId : list Z) : JS BuyNftQuery :=
  let! privateKey := getPrivateKey in
  let! publicKey := lift (getPublicKeyAsync privateKey) in
  let hex := bytesToHex publicKey in
  let! id := lift (hexToNumberString (bytesToHex (Uint8Array_from nftId))) in
  ret {| nft_id := id; payment_sender := paymentSender; nft_receiver := hex |}.

Definition buyNFT (paymentSender : string) (nftId : list Z) : JS unit :=
  console_log [LStr "get for sale called."];;;
  let url := "http://127.0.0.1:7000/buy-nft/" in
  try_catch
    (let! buyNftQuery := buyNftQuery paymentSender nftId in
     console_log [LVal (BuyNftQuery_object buyNftQuery)];;;
     let! response :=
       fetch {| url := url; method := "POST";
                headers := [("Content-Type", "application/json")];
                body := Some (JSON_stringify (BuyNftQuery_object buyNftQuery));
                cache := "no-cache" |} in
     ret tt)
    (fun e => console_log [LExn e];;; ret tt).

Definition checkPayment (nft_id : list Z) : JS bool :=
  let url := "http://127.0.0.1:7000/check-payment/" in
  let! id := lift (hexToNumberString (bytesToHex (Uint8Array_from nft_id))) in
  let! response := fetch {| url := url +:+ id; method := "GET"; headers := [];
                            body := None; cache := "no-store" |} in
  if ok response then
    ret true
  else
    console_error [LStr "Request failed with status:"; LNum (status response)];;;
    ret false.

(** [MenuType] is declared in [./types]; the module only compares a
    value of it with [MenuType.main]. *)
Context {MenuType : Type} (MenuType_main : MenuType)
        (loose_eq : MenuType -> MenuType -> bool).

Definition getMenu (type : MenuType) : JS (list Menu) :=
  if loose_eq type MenuType_main then
    ret [ {| title := "Home"; path := "/" |};
          {| title := "About"; path := "/about" |} ]
  else
    ret [ {| title := "Home"; path := "/" |};
          {| title := "About"; path := "/about" |} ].
End Zknft.

(** ** Vocabulary of the statements *)

(** Two hexadecimal digits for one byte, high nibble first. *)
Definition hex2 (e : Z) : string :=
  String (hex_digit (e / 16)) (String (hex_digit (e mod 16)) "").

(** The digits of a byte sequence, first byte first. *)
Definition hex_body (b : bytes) : string :=
  fold_right (fun e rest => hex2 e +:+ rest) "" b.

(** The big-endian value of a byte sequence, continuing from [acc]. *)
Definition be_value_from (acc : N) (b : bytes) : N :=
  fold_left (fun a e => 256 * a + Z.to_N e)%N b acc.

(** The request that carries a purchase query. *)
Definition buy_request `{Platform} (q : BuyNftQuery) : request :=
  {| url := "http://127.0.0.1:7000/buy-nft/"; method := "POST";
     headers := [("Content-Type", "application/json")];
     body := Some (JSON_stringify (BuyNftQuery_object q));
     cache := "no-cache" |}.

(** The request that asks whether the NFT with decimal identifier [id] is
    paid. *)
Definition payment_request (id : string) : request :=
  {| url := "http://127.0.0.1:7000/check-payment/" +:+ id; method := "GET";
     headers := []; body := None; cache := "no-store" |}.

(** The request for the listings. *)
Definition listing_request : request :=
  {| url := "http://127.0.0.1:7000/listed-nfts/"; method := "GET";
     headers := []; body := None; cache := "no-store" |}.

(** A fetched record with the two demo fields set. *)
Definition listed (record : NFT) : NFT :=
  <["currency_symbol" := JStr "PVL"]> (<["price" := JNum 10]> record).

(** Two browser states that differ at most in what the console shows. *)
Definition same_browser (s s' : state) : Prop :=
  localStorage s = localStorage s' /\ draws s = draws s' /\ network s = network s'.

(** A computation whose result and effects do not depend on what the
    console already shows. *)
Definition console_blind {A : Type} (m : JS A) : Prop :=
  forall s s', same_browser s s' ->
    fst (m s) = fst (m s') /\ same_browser (snd (m s)) (snd (m s')).

(** The browser after [setLocalStorage] has tried to store [privKey] under
    [key]. *)
Definition after_store `{Platform} (key : string) (privKey : bytes) (s : state) : state :=
  match setItem_throws (localStorage s) with
  | None => set_items (insert key (JSON_stringify (Array_from privKey))) s
  | Some e => print (ConsoleError [LStr "Error storing data in localStorage:"; LExn e]) s
  end.

(** What [getLocalStorage] prints when it catches [e]. *)
Definition retrieval_error (e : exn) : console_entry :=
  ConsoleError [LStr "Error retrieving data from localStorage:"; LExn e].

(** Reading the stored key fails: [getItem] throws, or it returns a text
    that [JSON.parse] rejects. *)
Definition storage_read_fails `{Platform} (s : state) : Prop :=
  (exists e, getItem_throws (localStorage s) = Some e) \/
  (getItem_throws (localStorage s) = None /\
   exists c text e,
     items (localStorage s) !! "my-private-key" = Some (String c text) /\
     JSON_parse (String c text) = Throw e).

(** The JSON text of a key is not empty and parses back to the array it
    was written from. *)
Definition json_round_trips `{Platform} (k : bytes) : Prop :=
  exists c text,
    JSON_stringify (Array_from k) = String c text /\
    JSON_parse (String c text) = Ok (Array_from k).

(** The decimal identifier that [buyNFT] and [checkPayment] compute from an
    identifier array. *)
Definition encoded_id `{Platform} (nftId : list Z) : result string :=
  hexToNumberString (bytesToHex (Uint8Array_from nftId)).

(** The entry under which the identity key is kept. *)
Definition identity_entry (s : state) : option string :=
  items (localStorage s) !! "my-private-key".

(** Local storage whose accessors do not throw. *)
Definition storage_operational (s : state) : Prop :=
  getItem_throws (localStorage s) = None /\ setItem_throws (localStorage s) = None.

(** ** A recorded platform

    Concrete collaborators on which the module runs: a JSON codec for what
    the module itself stores, the first three key pairs of RFC 8032
    (section 7.1) as the outcomes of the Ed25519 calls, and a server that
    is a parameter. *)
Module Recorded.

Definition quote_char : ascii := ascii_of_nat 34.
Definition backslash : ascii := ascii_of_nat 92.

Fixpoint escape (s : string) : string :=
  match s with
  | EmptyString => EmptyString
  | String c rest =>
      if bool_decide (c = quote_char) || bool_decide (c = backslash)
      then String backslash (String c (escape rest))
      else String c (escape rest)
  end.

Definition quoted (s : string) : string :=
  String quote_char (escape s +:+ String quote_char "").

Fixpoint join (sep : string) (l : list string) : string :=
  match l with
  | [] => ""
  | [s] => s
  | s :: rest => s +:+ sep +:+ join sep rest
  end.

Fixpoint stringify (v : jsval) : string :=
  match v with
  | JNull => "null"
  | JBool true => "true"
  | JBool false => "false"
  | JNum n => if n <? 0 then "-" +:+ decimal (Z.to_N (- n)) else decimal (Z.to_N n)
  | JStr s => quoted s
  | JArr l => "[" +:+ join "," (List.map stringify l) +:+ "]"
  | JObj o =>
      "{" +:+ join "," (map_fold (fun k x acc => (quoted k +:+ ":" +:+ stringify x) :: acc) [] o)
          +:+ "}"
  end.

Definition digit_value (c : ascii) : option N :=
  let n := N_of_ascii c in
  if ((48 <=? n) && (n <=? 57))%N then Some (n - 48)%N else None.

(** The inside of an array of non-negative integers, up to the closing
    bracket. *)
Fixpoint parse_numbers (text : string) (current : option N) (done : list Z)
  : option (list Z) :=
  match text with
  | EmptyString => None
  | String c rest =>
      if bool_decide (c = "]"%char) then
        match rest, current, done with
        | EmptyString, Some n, _ => Some (done ++ [Z.of_N n])
        | EmptyString, None, [] => Some []
        | _, _, _ => None
        end
      else if bool_decide (c = ","%char) then
        match current with
        | Some n => parse_numbers rest None (done ++ [Z.of_N n])
        | None => None
        end
      else
        match digit_value c with
        | Some d => parse_numbers rest (Some (10 * default 0 current + d))%N done
        | None => None
        end
  end.

(** Reads [null] and arrays of non-negative integers; anything else is
    reported as malformed. *)
Definition parse (text : string) : result jsval :=
  if bool_decide (text = "null") then Ok JNull
  else
    match text with
    | String "[" rest =>
        match parse_numbers rest None [] with
        | Some ns => Ok (Array_from ns)
        | None => Throw (SyntaxError "Unexpected token")
        end
    | _ => Throw (SyntaxError "Unexpected token")
    end.

Definition seed1 : bytes :=
  [157; 97; 177; 157; 239; 253; 90; 96; 186; 132; 74; 244; 146; 236; 44; 196;
   68; 73; 197; 105; 123; 50; 105; 25; 112; 59; 172; 3; 28; 174; 127; 96].
Definition public1 : bytes :=
  [215; 90; 152; 1; 130; 177; 10; 183; 213; 75; 254; 211; 201; 100; 7; 58;
   14; 225; 114; 243; 218; 166; 35; 37; 175; 2; 26; 104; 247; 7; 81; 26].
Definition seed2 : bytes :=
  [76; 205; 8; 155; 40; 255; 150; 218; 157; 182; 195; 70; 236; 17; 78; 15;
   91; 138; 49; 159; 53; 171; 166; 36; 218; 140; 246; 237; 79; 184; 166; 251].
Definition public2 : bytes :=
  [61; 64; 23; 195; 232; 67; 137; 90; 146; 183; 10; 167; 77; 27; 126; 188;
   156; 152; 44; 207; 46; 196; 150; 140; 192; 205; 85; 241; 42; 244; 102; 12].
Definition seed3 : bytes :=
  [197; 170; 141; 244; 63; 159; 131; 123; 237; 183; 68; 47; 49; 220; 183; 177;
   102; 211; 133; 53; 7; 111; 9; 75; 133; 206; 58; 46; 11; 68; 88; 247].
Definition public3 : bytes :=
  [252; 81; 205; 142; 98; 24; 161; 163; 141; 164; 126; 208; 2; 48; 240; 88;
   8; 22; 237; 19; 186; 51; 3; 172; 93; 235; 145; 21; 72; 144; 128; 37].

Definition key_pairs : list (bytes * bytes) :=
  [(seed1, public1); (seed2, public2); (seed3, public3)].

(** The n-th random key is the n-th recorded seed. *)
Definition draw (n : nat) : result bytes :=
  match key_pairs !! n with
  | Some (seed, _) => Ok seed
  | None => Throw (Error "crypto.getRandomValues must be defined")
  end.

Definition public_key (privateKey : bytes) : result bytes :=
  match List.find (fun pair => bool_decide (fst pair = privateKey)) key_pairs with
  | Some (_, publicKey) => Ok publicKey
  | None => Throw (Error "private key not recorded")
  end.

Definition typed_array_other (v : jsval) : result bytes :=
  match v with
  | JNum n => if n <? 0 then Throw (RangeError "Invalid typed array length")
              else Ok (repeat 0 (Z.to_nat n))
  | _ => Throw (Error "not recorded")
  end.

Definition platform (server : list request -> request -> result response) : Platform :=
  {| JSON_parse := parse;
     JSON_stringify := stringify;
     Uint8Array_other := typed_array_other;
     randomPrivateKey := draw;
     getPublicKeyAsync := public_key;
     hexToNumberString_other := fun _ => Throw (Error "Invalid hex string");
     fetch_outcome := server |}.

(** Servers: unreachable, or answering every request alike. *)
Definition unreachable : list request -> request -> result response :=
  fun _ _ => Throw (TypeError "Failed to fetch").

Definition answering (r : response) : list request -> request -> result response :=
  fun _ _ => Ok r.

Definition offline : Platform := platform unreachable.

Definition online : Platform :=
  platform (answering {| status := 200; json := Ok JNull |}).

(** A server with two listings, the second of which already has a
    price. *)
Definition ape : NFT := <["name" := JStr "ape"]> ∅.
Definition cat : NFT := <["price" := JNum 3]> (<["name" := JStr "cat"]> ∅).

Definition stocked : Platform :=
  platform (answering {| status := 200; json := Ok (JArr [JObj ape; JObj cat]) |}).

Definition missing : Platform :=
  platform (answering {| status := 404; json := Throw (SyntaxError "Unexpected token") |}).

(** Browsers: a new profile, and one whose storage is blocked. *)
Definition new_profile : state :=
  {| localStorage := {| items := ∅; getItem_throws := None; setItem_throws := None |};
     draws := 0; console := []; network := [] |}.

Definition blocked_storage : state :=
  {| localStorage :=
       {| items := ∅;
          getItem_throws := Some (DOMException "SecurityError");
          setItem_throws := Some (DOMException "SecurityError") |};
     draws := 0; console := []; network := [] |}.

(** A server whose 200 answer has a body that is not JSON. *)
Definition garbled : Platform :=
  platform (answering {| status := 200; json := Throw (SyntaxError "Unexpected token <") |}).

(** A platform on which key derivation is unavailable, as in a page that
    is not a secure context. *)
Definition underivable : Platform :=
  {| JSON_parse := parse;
     JSON_stringify := stringify;
     Uint8Array_other := typed_array_other;
     randomPrivateKey := draw;
     getPublicKeyAsync := fun _ => Throw (Error "crypto.subtle must be defined");
     hexToNumberString_other := fun _ => Throw (Error "Invalid hex string");
     fetch_outcome := unreachable |}.

(** A browser that already holds a key, one element of which is out of the
    byte range. *)
Definition returning_profile : state :=
  {| localStorage :=
       {| items := <["my-private-key" := "[1,2,300]"]> ∅;
          getItem_throws := None; setItem_throws := None |};
     draws := 0; console := []; network := [] |}.

End Recorded.


(** * Properties *)

(** ** Strings and the hexadecimal encoding *)

Lemma append_cons (c : ascii) (s1 s2 : string) :
  String c s1 +:+ s2 = String c (s1 +:+ s2).
Proof. reflexivity. Qed.

Lemma append_empty_l (s : string) : "" +:+ s = s.
Proof. reflexivity. Qed.

Lemma length_append (s1 s2 : string) :
  String.length (s1 +:+ s2) = (String.length s1 + String.length s2)%nat.
Proof.
  induction s1 as [|c s1 IH]; [reflexivity |].
  rewrite append_cons. simpl. now rewrite IH.
Qed.

Lemma append_assoc (s1 s2 s3 : string) : (s1 +:+ s2) +:+ s3 = s1 +:+ s2 +:+ s3.
Proof.
  induction s1 as [|c s1 IH]; [reflexivity |].
  rewrite !append_cons. now f_equal.
Qed.

Lemma append_empty_r (s : string) : s +:+ "" = s.
Proof.
  induction s as [|c s IH]; [reflexivity |].
  rewrite append_cons. now f_equal.
Qed.

Lemma is_byte_cases (e : Z) :
  is_byte e ->
  exists hi lo, e = 16 * hi + lo /\ In hi (seqZ 0 16) /\ In lo (seqZ 0 16).
Proof.
  intros He. exists (e / 16), (e mod 16). unfold is_byte in He.
  split; [apply Z.div_mod; lia |].
  assert (0 <= e / 16 < 16) by (split; [apply Z.div_pos | apply Z.div_lt_upper_bound]; lia).
  assert (0 <= e mod 16 < 16) by (apply Z.mod_pos_bound; lia).
  split; apply list_elem_of_In, elem_of_seqZ; lia.
Qed.

Lemma padded_toString16 (e : Z) :
  is_byte e ->
  (let hex := toString16 e in
   if Nat.eqb (String.length hex) 1 then "0" +:+ hex else hex) = hex2 e.
Proof.
  intros He. unfold toString16, hex2. destruct (Z.ltb_spec e 16) as [Hlt|Hge]; simpl.
  - unfold is_byte in He.
    rewrite (Z.div_small e 16), (Z.mod_small e 16) by lia. reflexivity.
  - reflexivity.
Qed.

Lemma bytesToHex_from (b : bytes) (acc : string) :
  Forall is_byte b ->
  fold_left
    (fun hexString e =>
       let hex := toString16 e in
       hexString +:+ (if Nat.eqb (String.length hex) 1 then "0" +:+ hex else hex))
    b acc = acc +:+ hex_body b.
Proof.
  intros Hb. revert acc. induction Hb as [|e b He Hb IH]; intros acc; simpl.
  - now rewrite append_empty_r.
  - rewrite IH. pose proof (padded_toString16 e He) as Hp. cbv zeta in Hp.
    rewrite Hp. apply append_assoc.
Qed.

(** [bytesToHex] is the prefix followed by two digits per byte. *)
Lemma bytesToHex_hex_body (b : bytes) :
  Forall is_byte b -> bytesToHex b = "0x" +:+ hex_body b.
Proof. intros Hb. unfold bytesToHex. now rewrite bytesToHex_from. Qed.

Lemma length_hex_body (b : bytes) : String.length (hex_body b) = (2 * length b)%nat.
Proof.
  induction b as [|e b IH]; [reflexivity |].
  change (hex_body (e :: b)) with (hex2 e +:+ hex_body b).
  rewrite length_append, IH. simpl. lia.
Qed.

Lemma Uint8Array_from_bytes (numbers : list Z) : Forall is_byte (Uint8Array_from numbers).
Proof.
  unfold Uint8Array_from. apply Forall_map, Forall_forall. intros n _.
  unfold is_byte, ToUint8. apply Z.mod_pos_bound. lia.
Qed.

Lemma ToUint8_byte (e : Z) : is_byte e -> ToUint8 e = e.
Proof. intros He. apply Z.mod_small, He. Qed.

Lemma Uint8Array_from_id (b : bytes) : Forall is_byte b -> map ToUint8 b = b.
Proof.
  induction 1 as [|e b He Hb IH]; simpl; [reflexivity |].
  now rewrite ToUint8_byte, IH.
Qed.

Lemma hex_value_from_append (s1 s2 : string) (acc : N) :
  hex_value_from acc (s1 +:+ s2) =
  match hex_value_from acc s1 with
  | Some a => hex_value_from a s2
  | None => None
  end.
Proof.
  revert acc. induction s1 as [|c s1 IH]; intros acc; [reflexivity |].
  rewrite append_cons. simpl.
  destruct (hex_digit_value c); [apply IH | reflexivity].
Qed.

Lemma hex_value_hex2 (e : Z) (acc : N) :
  is_byte e -> hex_value_from acc (hex2 e) = Some (256 * acc + Z.to_N e)%N.
Proof.
  intros He. destruct (is_byte_cases e He) as (hi & lo & -> & Hhi & Hlo).
  assert (Hq : (16 * hi + lo) / 16 = hi /\ (16 * hi + lo) mod 16 = lo).
  { apply list_elem_of_In, elem_of_seqZ in Hhi, Hlo.
    split; [| rewrite Z.add_comm, Z.mul_comm, Z_mod_plus_full; apply Z.mod_small; lia].
    rewrite Z.add_comm, Z.mul_comm, Z_div_plus_full by lia.
    rewrite Z.div_small; lia. }
  unfold hex2. destruct Hq as [-> ->].
  simpl in Hhi, Hlo.
  repeat (destruct Hhi as [<-|Hhi]; [| try contradiction]);
    repeat (destruct Hlo as [<-|Hlo]; [| try contradiction]);
    simpl; f_equal; lia.
Qed.

Lemma hex_value_hex_body (b : bytes) (acc : N) :
  Forall is_byte b -> hex_value_from acc (hex_body b) = Some (be_value_from acc b).
Proof.
  intros Hb. revert acc. induction Hb as [|e b He Hb IH]; intros acc.
  - reflexivity.
  - change (hex_body (e :: b)) with (hex2 e +:+ hex_body b).
    rewrite hex_value_from_append, hex_value_hex2 by exact He. apply IH.
Qed.


(** ** The module's functions *)

Ltac unfold_js :=
  unfold buyNFT, buyNftQuery, checkPayment, getForSaleNFTs, getPrivateKey,
    getLocalStorage, setLocalStorage, fetch, console_log, console_error,
    localStorage_getItem, localStorage_setItem, ed_utils_randomPrivateKey,
    bind, try_catch, lift, ret, modify in *.

Section Facts.
Context `{Platform}.

Lemma hexToNumberString_digits (c : ascii) (digits : string) (n : N) :
  hex_value_from 0 (String c digits) = Some n ->
  hexToNumberString ("0x" +:+ String c digits) = Ok (decimal n).
Proof.
  intros Hv.
  change ("0x" +:+ String c digits) with (String "0" (String "x" (String c digits))).
  unfold hexToNumberString. cbv beta iota. now rewrite Hv.
Qed.

(** On a non-empty byte sequence the two web3-utils calls compose to the
    decimal form of its big-endian value. *)
Lemma hexToNumberString_bytesToHex (b : bytes) :
  Forall is_byte b -> b <> [] ->
  hexToNumberString (bytesToHex b) = Ok (decimal (be_value_from 0 b)).
Proof.
  intros Hb Hne. rewrite bytesToHex_hex_body by exact Hb.
  pose proof (hex_value_hex_body b 0 Hb) as Hv.
  destruct b as [|e b]; [congruence |].
  change (hex_body (e :: b)) with (hex2 e +:+ hex_body b) in *.
  unfold hex2 in *. rewrite !append_cons in *.
  now apply hexToNumberString_digits.
Qed.

Lemma encode_010203 :
  hexToNumberString (bytesToHex (Uint8Array_from [1; 2; 3])) = Ok "66051".
Proof. reflexivity. Qed.

Lemma getPrivateKey_network (s : state) :
  network (snd (getPrivateKey s)) = network s.
Proof. unfold_js. repeat case_match; simplify_eq; reflexivity. Qed.

Lemma blind_ret {A} (a : A) : console_blind (ret a).
Proof. intros s s' Hs. now split. Qed.

Lemma blind_lift {A} (r : result A) : console_blind (lift r).
Proof. intros s s' Hs. now split. Qed.

Lemma blind_bind {A B} (m : JS A) (k : A -> JS B) :
  console_blind m -> (forall a, console_blind (k a)) -> console_blind (bind m k).
Proof.
  intros Hm Hk s s' Hs. destruct (Hm s s' Hs) as [Hr Hs1]. unfold bind.
  destruct (m s) as [r s1], (m s') as [r' s1']. simpl in Hr, Hs1. subst r'.
  destruct r as [a|e]; [now apply Hk | now split].
Qed.

Lemma blind_try_catch {A} (body : JS A) (handler : exn -> JS A) :
  console_blind body -> (forall e, console_blind (handler e)) ->
  console_blind (try_catch body handler).
Proof.
  intros Hm Hk s s' Hs. destruct (Hm s s' Hs) as [Hr Hs1]. unfold try_catch.
  destruct (body s) as [r s1], (body s') as [r' s1']. simpl in Hr, Hs1. subst r'.
  destruct r as [a|e]; [now split | now apply Hk].
Qed.

Lemma blind_print (e : console_entry) : console_blind (modify (print e)).
Proof. intros s s' Hs. split; [reflexivity | exact Hs]. Qed.

Lemma blind_getItem (key : string) : console_blind (localStorage_getItem key).
Proof.
  intros s s' (Hl & Hd & Hn). unfold localStorage_getItem. rewrite Hl.
  destruct (getItem_throws (localStorage s')); now repeat split.
Qed.

Lemma blind_setItem (key value : string) : console_blind (localStorage_setItem key value).
Proof.
  intros s s' (Hl & Hd & Hn). unfold localStorage_setItem. rewrite Hl.
  destruct (setItem_throws (localStorage s')); [now repeat split |].
  unfold same_browser. simpl. now rewrite Hl.
Qed.

Lemma blind_randomPrivateKey : console_blind ed_utils_randomPrivateKey.
Proof.
  intros s s' (Hl & Hd & Hn). unfold ed_utils_randomPrivateKey, same_browser.
  simpl. now rewrite Hl, Hd.
Qed.

Lemma blind_getPrivateKey : console_blind getPrivateKey.
Proof.
  unfold getPrivateKey, getLocalStorage, setLocalStorage, console_log, console_error.
  apply blind_bind.
  - apply blind_try_catch.
    + apply blind_bind; [apply blind_getItem |].
      intros [[|c text]|]; auto using blind_ret, blind_lift.
    + intros e. apply blind_bind; auto using blind_print, blind_ret.
  - intros seed.
    assert (Hfresh : console_blind
              (let! privKey := ed_utils_randomPrivateKey in
               try_catch
                 (localStorage_setItem "my-private-key" (JSON_stringify (Array_from privKey)))
                 (fun error =>
                    modify (print (ConsoleError
                      [LStr "Error storing data in localStorage:"; LExn error])));;;
               let! publicKey := lift (getPublicKeyAsync privKey) in
               modify (print (ConsoleLog [LBytes publicKey]));;;
               ret privKey)).
    { apply blind_bind; [apply blind_randomPrivateKey |]. intros privKey.
      apply blind_bind.
      - apply blind_try_catch; [apply blind_setItem | intros e; apply blind_print].
      - intros _. apply blind_bind; [apply blind_lift |]. intros publicKey.
        apply blind_bind; [apply blind_print | intros _; apply blind_ret]. }
    destruct seed; auto using blind_lift.
Qed.

Lemma same_browser_print (e : console_entry) (s : state) : same_browser (print e s) s.
Proof. now repeat split. Qed.

(** What the console shows when [getPrivateKey] is called does not
    change the key it returns. *)
Lemma getPrivateKey_print (e : console_entry) (s : state) :
  fst (getPrivateKey (print e s)) = fst (getPrivateKey s).
Proof. apply blind_getPrivateKey, same_browser_print. Qed.

End Facts.

(** ** The menu *)

(** C9: [getMenu] does not depend on its argument: whatever value of
    [MenuType] it is given, and whether or not that value compares equal to
    [MenuType.main], it returns the two entries Home ("/") and About
    ("/about"), in that order, and changes nothing in the browser. *)
Theorem getMenu_constant {MenuType : Type} (main : MenuType)
    (loose_eq : MenuType -> MenuType -> bool) (type : MenuType) (s : state) :
  getMenu main loose_eq type s =
  (Ok [ {| title := "Home"; path := "/" |}; {| title := "About"; path := "/about" |} ], s).
Proof. unfold getMenu. destruct (loose_eq type main); reflexivity. Qed.

(** ** Purchase requests *)

Section Purchase.
Context `{Platform}.

(** C5: [buyNFT] never rejects.  Whatever the key store, the Ed25519
    library, web3-utils and the network do (a throwing [fetch] and a
    non-2xx answer included), the call completes normally, with
    [undefined]. *)
Theorem buyNFT_never_rejects (paymentSender : string) (nftId : list Z) (s : state) :
  fst (buyNFT paymentSender nftId s) = Ok tt.
Proof.
  unfold buyNFT, try_catch, bind at 1. simpl.
  match goal with |- context [bind ?m ?k ?s0] => destruct (bind m k s0) as [[[]|e] s1] end;
    reflexivity.
Qed.

Lemma blind_buyNftQuery (paymentSender : string) (nftId : list Z) :
  console_blind (buyNftQuery paymentSender nftId).
Proof.
  unfold buyNftQuery. apply blind_bind; [apply blind_getPrivateKey |].
  intros privateKey. apply blind_bind; [apply blind_lift |].
  intros publicKey. apply blind_bind; [apply blind_lift |].
  intros id. apply blind_ret.
Qed.

(** Deriving the public key and encoding the identifier leave the browser
    as [getPrivateKey] left it. *)
Lemma buyNftQuery_state (paymentSender : string) (nftId : list Z) (s : state) :
  snd (buyNftQuery paymentSender nftId s) = snd (getPrivateKey s).
Proof.
  unfold buyNftQuery, bind, lift, ret.
  destruct (getPrivateKey s) as [[privateKey|e] s1]; [| reflexivity].
  destruct (getPublicKeyAsync privateKey); [| reflexivity].
  destruct (hexToNumberString _); reflexivity.
Qed.

Lemma buyNftQuery_inv (paymentSender : string) (nftId : list Z) (s : state)
    (q : BuyNftQuery) :
  fst (buyNftQuery paymentSender nftId s) = Ok q ->
  exists privateKey publicKey,
    fst (getPrivateKey s) = Ok privateKey /\
    getPublicKeyAsync privateKey = Ok publicKey /\
    hexToNumberString (bytesToHex (Uint8Array_from nftId)) = Ok (nft_id q) /\
    payment_sender q = paymentSender /\
    nft_receiver q = bytesToHex publicKey.
Proof.
  unfold buyNftQuery, bind, lift, ret.
  destruct (getPrivateKey s) as [[privateKey|e] s1]; [| discriminate].
  destruct (getPublicKeyAsync privateKey) as [publicKey|e] eqn:Hpk; [| discriminate].
  destruct (hexToNumberString _) as [id|e] eqn:Hid; [| discriminate].
  simpl. intros [= <-]. exists privateKey, publicKey. auto.
Qed.

Lemma buyNftQuery_ok (paymentSender : string) (nftId : list Z) (s : state)
    (privateKey publicKey : bytes) (id : string) :
  fst (getPrivateKey s) = Ok privateKey ->
  getPublicKeyAsync privateKey = Ok publicKey ->
  hexToNumberString (bytesToHex (Uint8Array_from nftId)) = Ok id ->
  fst (buyNftQuery paymentSender nftId s) =
  Ok {| nft_id := id; payment_sender := paymentSender;
        nft_receiver := bytesToHex publicKey |}.
Proof.
  intros Hkey Hpk Hid. unfold buyNftQuery, bind, lift, ret.
  destruct (getPrivateKey s) as [r s1]. simpl in Hkey. subst r.
  now rewrite Hpk, Hid.
Qed.

(** When the query is built, [buyNFT] posts exactly it. *)
Lemma buyNFT_sends (paymentSender : string) (nftId : list Z) (s : state)
    (q : BuyNftQuery) :
  fst (buyNftQuery paymentSender nftId s) = Ok q ->
  network (snd (buyNFT paymentSender nftId s)) = network s ++ [buy_request q].
Proof.
  intros Hq. unfold buyNFT, bind at 1. simpl.
  set (s0 := print (ConsoleLog [LStr "get for sale called."]) s).
  destruct (blind_buyNftQuery paymentSender nftId s0 s (same_browser_print _ s))
    as [Hr _].
  rewrite Hq in Hr.
  pose proof (buyNftQuery_state paymentSender nftId s0) as Hs.
  pose proof (getPrivateKey_network s0) as Hn. rewrite <- Hs in Hn.
  unfold try_catch, bind, fetch, console_log, modify, ret.
  destruct (buyNftQuery paymentSender nftId s0) as [r s1].
  simpl in Hr, Hn. subst r. simpl.
  destruct (fetch_outcome _ _); simpl; now rewrite Hn.
Qed.

(** C2, as the module has it: with identifier bytes [1,2,3] and sender
    "addr1", the request that [buyNFT] posts carries the query whose
    [nft_id] is "66051" (the bytes read as the big-endian integer
    0x010203, in decimal), whose [payment_sender] is "addr1" unchanged,
    and whose [nft_receiver] is "0x" followed by the 64 hexadecimal
    digits of the 32-byte public key of the local identity: 66
    characters in all. *)
Theorem buyNFT_request_010203 (s : state) (seed publicKey : bytes) :
  fst (getPrivateKey s) = Ok seed ->
  getPublicKeyAsync seed = Ok publicKey ->
  Forall is_byte publicKey ->
  length publicKey = 32%nat ->
  let q := {| nft_id := "66051"; payment_sender := "addr1";
              nft_receiver := "0x" +:+ hex_body publicKey |} in
  network (snd (buyNFT "addr1" [1; 2; 3] s)) = network s ++ [buy_request q] /\
  decimal (be_value_from 0 [1; 2; 3]) = "66051" /\
  String.length (hex_body publicKey) = 64%nat /\
  String.length (nft_receiver q) = 66%nat.
Proof.
  intros Hkey Hpk Hbytes Hlen q. repeat split.
  - apply buyNFT_sends. unfold q. rewrite <- bytesToHex_hex_body by exact Hbytes.
    now apply buyNftQuery_ok with (privateKey := seed).
  - now rewrite length_hex_body, Hlen.
  - unfold q. simpl nft_receiver. rewrite length_append, length_hex_body, Hlen.
    reflexivity.
Qed.

(** C8: in [buyNFT] the public key is a function of the seed alone, and
    deriving it has no effect.  Two runs that start from the same seed
    put the same [nft_receiver] in their queries, whatever the browser
    states, senders and identifiers; and after the derivation every part
    of the browser state is as [getPrivateKey] left it. *)
Theorem public_key_depends_on_seed_only
    (s1 s2 : state) (sender1 sender2 : string) (id1 id2 : list Z)
    (seed : bytes) (q1 q2 : BuyNftQuery) :
  fst (getPrivateKey s1) = Ok seed ->
  fst (getPrivateKey s2) = Ok seed ->
  fst (buyNftQuery sender1 id1 s1) = Ok q1 ->
  fst (buyNftQuery sender2 id2 s2) = Ok q2 ->
  nft_receiver q1 = nft_receiver q2 /\
  snd (buyNftQuery sender1 id1 s1) = snd (getPrivateKey s1) /\
  snd (buyNftQuery sender2 id2 s2) = snd (getPrivateKey s2).
Proof.
  intros Hk1 Hk2 Hq1 Hq2.
  apply buyNftQuery_inv in Hq1 as (k1 & p1 & Hk1' & Hp1 & _ & _ & ->).
  apply buyNftQuery_inv in Hq2 as (k2 & p2 & Hk2' & Hp2 & _ & _ & ->).
  rewrite Hk1 in Hk1'. rewrite Hk2 in Hk2'.
  injection Hk1' as <-. injection Hk2' as <-.
  rewrite Hp1 in Hp2. injection Hp2 as <-.
  repeat split; apply buyNftQuery_state.
Qed.
End Purchase.

(** ** Payment status *)

Section Payment.
Context `{Platform}.

(** [checkPayment], step by step, once the identifier is encoded. *)
Lemma checkPayment_run (nft_id : list Z) (s : state) (id : string) :
  hexToNumberString (bytesToHex (Uint8Array_from nft_id)) = Ok id ->
  checkPayment nft_id s =
  match fetch_outcome (network s) (payment_request id) with
  | Ok r =>
      if ok r then (Ok true, issue (payment_request id) s)
      else (Ok false,
            print (ConsoleError [LStr "Request failed with status:"; LNum (status r)])
              (issue (payment_request id) s))
  | Throw e => (Throw e, issue (payment_request id) s)
  end.
Proof.
  intros Hid. unfold checkPayment, bind, lift, fetch. rewrite Hid.
  fold (payment_request id).
  destruct (fetch_outcome (network s) (payment_request id)) as [r|e]; [| reflexivity].
  destruct (ok r); reflexivity.
Qed.

(** When the server answers, the result is [response.ok]: true exactly
    for a status from 200 to 299. *)
Lemma checkPayment_answered (nft_id : list Z) (s : state) (id : string) (r : response) :
  hexToNumberString (bytesToHex (Uint8Array_from nft_id)) = Ok id ->
  fetch_outcome (network s) (payment_request id) = Ok r ->
  fst (checkPayment nft_id s) = Ok (ok r) /\
  (ok r = true <-> 200 <= status r <= 299).
Proof.
  intros Hid Hr. rewrite (checkPayment_run _ _ _ Hid), Hr. split.
  - destruct (ok r); reflexivity.
  - unfold ok. rewrite andb_true_iff, !Z.leb_le. tauto.
Qed.

(** A rejected [fetch] is not caught: [checkPayment] rejects with the
    same error. *)
Lemma checkPayment_fetch_throws (nft_id : list Z) (s : state) (id : string) (e : exn) :
  hexToNumberString (bytesToHex (Uint8Array_from nft_id)) = Ok id ->
  fetch_outcome (network s) (payment_request id) = Throw e ->
  fst (checkPayment nft_id s) = Throw e.
Proof. intros Hid He. now rewrite (checkPayment_run _ _ _ Hid), He. Qed.

(** C10: [buyNFT] and [checkPayment] encode an identifier alike: the
    string that [buyNFT] puts in the [nft_id] field of the query it posts
    is the string that [checkPayment], given the same bytes, appends to
    the check-payment URL. *)
Theorem buyNFT_checkPayment_same_id
    (paymentSender : string) (nftId : list Z) (s s' : state) (q : BuyNftQuery) :
  fst (buyNftQuery paymentSender nftId s) = Ok q ->
  network (snd (buyNFT paymentSender nftId s)) = network s ++ [buy_request q] /\
  network (snd (checkPayment nftId s')) = network s' ++ [payment_request (nft_id q)] /\
  url (payment_request (nft_id q)) = "http://127.0.0.1:7000/check-payment/" +:+ nft_id q.
Proof.
  intros Hq. split; [now apply buyNFT_sends |]. split; [| reflexivity].
  apply buyNftQuery_inv in Hq as (_ & _ & _ & _ & Hid & _ & _).
  rewrite (checkPayment_run _ _ _ Hid).
  destruct (fetch_outcome _ _) as [r|e]; [destruct (ok r) |]; reflexivity.
Qed.
End Payment.

(** ** Listings *)

Section Listings.
Context `{Platform}.

Lemma push_listings_map (jsonData : list jsval) (nfts_to_return : list NFT) :
  push_listings jsonData nfts_to_return =
  nfts_to_return ++ map (fun nft => listed (spread nft)) jsonData.
Proof.
  revert nfts_to_return. induction jsonData as [|nft rest IH]; intros acc; simpl.
  - now rewrite app_nil_r.
  - rewrite IH, <- app_assoc. reflexivity.
Qed.

Lemma map_spread_objects (records : list NFT) :
  map (fun nft => listed (spread nft)) (map JObj records) = map listed records.
Proof. rewrite map_map. reflexivity. Qed.

Lemma listed_price (record : NFT) : listed record !! "price" = Some (JNum 10).
Proof. unfold listed. now rewrite lookup_insert_ne, lookup_insert_eq. Qed.

Lemma listed_currency_symbol (record : NFT) :
  listed record !! "currency_symbol" = Some (JStr "PVL").
Proof. unfold listed. now rewrite lookup_insert_eq. Qed.

Lemma listed_other (record : NFT) (k : string) :
  k <> "price" -> k <> "currency_symbol" -> listed record !! k = record !! k.
Proof. intros H1 H2. unfold listed. now rewrite !lookup_insert_ne. Qed.

(** C3: [getForSaleNFTs] returns the empty list when [fetch] throws and
    when the answer is not 2xx; when the answer is 2xx and carries an
    array of records, it returns those records in their order, each with
    [price] set to 10 and [currency_symbol] set to "PVL" and its other
    fields as fetched. *)
Theorem getForSaleNFTs_result (s : state) :
  (forall e,
      fetch_outcome (network s) listing_request = Throw e ->
      fst (getForSaleNFTs s) = Ok []) /\
  (forall r,
      fetch_outcome (network s) listing_request = Ok r -> ok r = false ->
      fst (getForSaleNFTs s) = Ok []) /\
  (forall r records,
      fetch_outcome (network s) listing_request = Ok r -> ok r = true ->
      json r = Ok (JArr (map JObj records)) ->
      fst (getForSaleNFTs s) = Ok (map listed records)) /\
  (forall record,
      listed record !! "price" = Some (JNum 10) /\
      listed record !! "currency_symbol" = Some (JStr "PVL") /\
      forall k, k <> "price" -> k <> "currency_symbol" ->
                listed record !! k = record !! k).
Proof.
  assert (Hrun : forall outcome,
             fetch_outcome (network s) listing_request = outcome ->
             fst (getForSaleNFTs s) =
             Ok match outcome with
                | Ok r =>
                    if ok r then
                      match json r with
                      | Ok jsonData =>
                          match iterate jsonData with
                          | Ok elements => push_listings elements []
                          | Throw _ => []
                          end
                      | Throw _ => []
                      end
                    else []
                | Throw _ => []
                end).
  { intros outcome <-. unfold getForSaleNFTs, bind at 1. simpl.
    fold listing_request. unfold try_catch, bind, fetch, lift. simpl.
    destruct (fetch_outcome (network s) listing_request) as [r|e]; [| reflexivity].
    destruct (ok r); [| reflexivity].
    destruct (json r) as [jsonData|e]; [| reflexivity].
    destruct (iterate jsonData); reflexivity. }
  repeat split.
  - intros e He. now rewrite (Hrun _ He).
  - intros r Hr Hok. now rewrite (Hrun _ Hr), Hok.
  - intros r records Hr Hok Hjson. rewrite (Hrun _ Hr), Hok, Hjson. simpl.
    now rewrite push_listings_map, map_spread_objects.
  - apply listed_price.
  - apply listed_currency_symbol.
  - apply listed_other.
Qed.
End Listings.

(** ** The identity key *)

Section Identity.
Context `{Platform}.

(** [getLocalStorage] never throws; it yields [null] for a missing or
    empty entry and for every failure. *)
Lemma getLocalStorage_run (key : string) (s : state) :
  getLocalStorage key s =
  match getItem_throws (localStorage s) with
  | Some e => (Ok JNull, print (retrieval_error e) s)
  | None =>
      match items (localStorage s) !! key with
      | Some (String c text) =>
          match JSON_parse (String c text) with
          | Ok v => (Ok v, s)
          | Throw e => (Ok JNull, print (retrieval_error e) s)
          end
      | _ => (Ok JNull, s)
      end
  end.
Proof.
  unfold getLocalStorage, try_catch, bind, localStorage_getItem, lift, ret,
    console_error, modify.
  destruct (getItem_throws (localStorage s)); [reflexivity |].
  destruct (items (localStorage s) !! key) as [[|c text]|]; reflexivity.
Qed.

Lemma numbers_of_JNum (k : list Z) : numbers_of (map JNum k) = Some k.
Proof.
  unfold numbers_of. induction k as [|e k IH]; [reflexivity |].
  simpl. now rewrite IH.
Qed.

Lemma new_Uint8Array_Array_from (k : bytes) :
  Forall is_byte k -> new_Uint8Array (Array_from k) = Ok k.
Proof.
  intros Hk. unfold new_Uint8Array, Array_from.
  now rewrite numbers_of_JNum, Uint8Array_from_id.
Qed.

Lemma setLocalStorage_run (key : string) (privKey : bytes) (s : state) :
  setLocalStorage key (Array_from privKey) s = (Ok tt, after_store key privKey s).
Proof.
  unfold setLocalStorage, try_catch, localStorage_setItem, console_error, modify,
    after_store.
  destruct (setItem_throws (localStorage s)); reflexivity.
Qed.

(** The branch of [getPrivateKey] that makes a new key. *)
Lemma getPrivateKey_fresh (s s0 : state) (privKey publicKey : bytes) :
  getLocalStorage "my-private-key" s = (Ok JNull, s0) ->
  randomPrivateKey (draws s0) = Ok privKey ->
  getPublicKeyAsync privKey = Ok publicKey ->
  getPrivateKey s =
  (Ok privKey,
   print (ConsoleLog [LBytes publicKey])
     (after_store "my-private-key" privKey (next_draw s0))).
Proof.
  intros Hread Hdraw Hpk. unfold getPrivateKey, bind at 1. rewrite Hread.
  unfold bind at 1. unfold ed_utils_randomPrivateKey. rewrite Hdraw.
  unfold bind at 1. rewrite setLocalStorage_run.
  unfold bind, lift, console_log, modify, ret. now rewrite Hpk.
Qed.

(** C6: a failing read of the stored key is taken for an absent key.
    When [getItem] throws or the stored text does not parse,
    [getLocalStorage] yields [null], and [getPrivateKey] returns the key
    it then draws from [randomPrivateKey], after trying to store it: the
    entry is overwritten if [setItem] does not throw and left alone if it
    does.  The storage error is not propagated. *)
Theorem getPrivateKey_read_failure (s : state) (privKey publicKey : bytes) :
  storage_read_fails s ->
  randomPrivateKey (draws s) = Ok privKey ->
  getPublicKeyAsync privKey = Ok publicKey ->
  fst (getLocalStorage "my-private-key" s) = Ok JNull /\
  fst (getPrivateKey s) = Ok privKey /\
  draws (snd (getPrivateKey s)) = S (draws s) /\
  items (localStorage (snd (getPrivateKey s))) =
    match setItem_throws (localStorage s) with
    | None => <["my-private-key" := JSON_stringify (Array_from privKey)]>
                (items (localStorage s))
    | Some _ => items (localStorage s)
    end.
Proof.
  intros Hfail Hdraw Hpk.
  assert (Hread : exists e,
             getLocalStorage "my-private-key" s = (Ok JNull, print (retrieval_error e) s)).
  { rewrite getLocalStorage_run.
    destruct Hfail as [[e He] | (Hget & c & text & e & Hitem & Hparse)].
    - exists e. now rewrite He.
    - exists e. now rewrite Hget, Hitem, Hparse. }
  destruct Hread as [e Hread].
  rewrite (getPrivateKey_fresh s _ privKey publicKey Hread Hdraw Hpk), Hread.
  unfold after_store. simpl.
  destruct (setItem_throws (localStorage s)); auto.
Qed.

(** A value that is not [null] was read without any effect. *)
Lemma getLocalStorage_value (key : string) (s s0 : state) (v : jsval) :
  getLocalStorage key s = (Ok v, s0) -> v <> JNull -> s0 = s.
Proof.
  rewrite getLocalStorage_run. intros Hrun Hv.
  destruct (getItem_throws (localStorage s)); [congruence |].
  destruct (items (localStorage s) !! key) as [[|c text]|]; try congruence.
  destruct (JSON_parse (String c text)); congruence.
Qed.

Lemma getLocalStorage_total (key : string) (s : state) :
  exists v s0, getLocalStorage key s = (Ok v, s0) /\ same_browser s0 s.
Proof.
  rewrite getLocalStorage_run.
  destruct (getItem_throws (localStorage s));
    [eauto using same_browser_print |].
  destruct (items (localStorage s) !! key) as [[|c text]|];
    try (exists JNull, s; now repeat split).
  destruct (JSON_parse (String c text)) as [v|e];
    [exists v, s; now repeat split | eauto using same_browser_print].
Qed.

(** C4, as the module has it: while local storage is operational (its
    accessors do not throw) and the JSON text of the key parses back to
    the key, a call of [getPrivateKey] that follows one that returned
    [k] returns [k] again, and changes nothing. *)
Theorem getPrivateKey_idempotent (s s1 : state) (k : bytes) :
  storage_operational s ->
  getPrivateKey s = (Ok k, s1) ->
  Forall is_byte k ->
  json_round_trips k ->
  getPrivateKey s1 = (Ok k, s1).
Proof.
  intros [Hget Hset] Hrun Hbytes (c & text & Htext & Hparse).
  destruct (getLocalStorage_total "my-private-key" s)
    as (seed & s0 & Hread & Hl0 & Hd0 & Hn0).
  assert (Hnull : seed = JNull \/ seed <> JNull)
    by (destruct seed; auto; right; discriminate).
  destruct Hnull as [-> | Hseed].
  - (* a new key was drawn and stored *)
    assert (Hfresh : exists publicKey,
               randomPrivateKey (draws s0) = Ok k /\
               getPublicKeyAsync k = Ok publicKey).
    { revert Hrun. unfold getPrivateKey, bind at 1. rewrite Hread.
      unfold bind at 1. unfold ed_utils_randomPrivateKey.
      destruct (randomPrivateKey (draws s0)) as [privKey|e]; [| discriminate].
      unfold bind at 1. rewrite setLocalStorage_run.
      unfold bind, lift, console_log, modify, ret.
      destruct (getPublicKeyAsync privKey) as [publicKey|e] eqn:Hpk; [| discriminate].
      intros [= <- _]. eauto. }
    destruct Hfresh as (publicKey & Hdraw & Hpk).
    rewrite (getPrivateKey_fresh s s0 k publicKey Hread Hdraw Hpk) in Hrun.
    injection Hrun as <-.
    unfold getPrivateKey, bind at 1. rewrite getLocalStorage_run.
    rewrite <- Hl0 in Hget, Hset.
    unfold after_store. simpl. rewrite Hset. simpl. rewrite Hget.
    rewrite lookup_insert_eq, Htext, Hparse.
    unfold lift. simpl. now rewrite numbers_of_JNum, Uint8Array_from_id.
  - (* a stored value was read *)
    pose proof (getLocalStorage_value _ _ _ _ Hread Hseed) as ->.
    assert (Hk : new_Uint8Array seed = Ok k /\ s1 = s).
    { revert Hrun. unfold getPrivateKey, bind at 1. rewrite Hread.
      unfold lift. destruct seed; try congruence; intros [= Hk <-]; auto. }
    destruct Hk as [Hk ->]. exact Hrun.
Qed.
End Identity.

(** ** More on the identifier encoding *)

Lemma decimal_inj (n m : N) : decimal n = decimal m -> n = m.
Proof.
  unfold decimal. intros Heq.
  apply (f_equal NilEmpty.uint_of_string) in Heq.
  rewrite !NilEmpty.usu in Heq. injection Heq as Heq.
  now apply Unsigned.to_uint_inj.
Qed.

Lemma be_value_from_acc (b : bytes) (acc : N) :
  be_value_from acc b = (acc * 256 ^ N.of_nat (length b) + be_value_from 0 b)%N.
Proof.
  revert acc. induction b as [|e b IH]; intros acc.
  - simpl. lia.
  - change (be_value_from acc (e :: b)) with (be_value_from (256 * acc + Z.to_N e) b).
    change (be_value_from 0 (e :: b)) with (be_value_from (256 * 0 + Z.to_N e) b).
    rewrite (IH (256 * acc + Z.to_N e)%N), (IH (256 * 0 + Z.to_N e)%N).
    replace (N.of_nat (length (e :: b))) with (N.succ (N.of_nat (length b)))
      by (simpl length; lia).
    rewrite N.pow_succ_r'. lia.
Qed.

Lemma be_value_bound (b : bytes) :
  Forall is_byte b -> (be_value_from 0 b < 256 ^ N.of_nat (length b))%N.
Proof.
  induction 1 as [|e b He Hb IH].
  - simpl. lia.
  - change (be_value_from 0 (e :: b)) with (be_value_from (256 * 0 + Z.to_N e) b).
    rewrite be_value_from_acc.
    replace (N.of_nat (length (e :: b))) with (N.succ (N.of_nat (length b)))
      by (simpl length; lia).
    rewrite N.pow_succ_r'. unfold is_byte in He.
    assert (Z.to_N e < 256)%N by lia. nia.
Qed.

Lemma be_value_inj (a b : bytes) :
  Forall is_byte a -> Forall is_byte b -> length a = length b ->
  be_value_from 0 a = be_value_from 0 b -> a = b.
Proof.
  intros Ha. revert b. induction Ha as [|e a He Ha IH]; intros b Hb Hlen Hval.
  - destruct b; [reflexivity | discriminate].
  - destruct Hb as [|f b Hf Hb]; [discriminate |].
    injection Hlen as Hlen.
    change (be_value_from 0 (e :: a)) with (be_value_from (256 * 0 + Z.to_N e) a) in Hval.
    change (be_value_from 0 (f :: b)) with (be_value_from (256 * 0 + Z.to_N f) b) in Hval.
    rewrite (be_value_from_acc a), (be_value_from_acc b), <- Hlen in Hval.
    pose proof (be_value_bound a Ha) as Hba.
    pose proof (be_value_bound b Hb) as Hbb. rewrite <- Hlen in Hbb.
    set (p := (256 ^ N.of_nat (length a))%N) in *.
    assert (Hef : Z.to_N e = Z.to_N f) by nia.
    assert (Hab : be_value_from 0 a = be_value_from 0 b) by nia.
    unfold is_byte in He, Hf. f_equal; [lia | now apply IH].
Qed.

Lemma hex2_inj (e f : Z) : is_byte e -> is_byte f -> hex2 e = hex2 f -> e = f.
Proof.
  intros He Hf Heq.
  pose proof (hex_value_hex2 e 0 He) as H1. rewrite Heq, (hex_value_hex2 f 0 Hf) in H1.
  unfold is_byte in He, Hf. injection H1 as H1. lia.
Qed.

Lemma hex_body_cons (e : Z) (b : bytes) :
  hex_body (e :: b) =
  String (hex_digit (e / 16)) (String (hex_digit (e mod 16)) (hex_body b)).
Proof. reflexivity. Qed.

Lemma hex_body_inj (a b : bytes) :
  Forall is_byte a -> Forall is_byte b -> hex_body a = hex_body b -> a = b.
Proof.
  intros Ha. revert b. induction Ha as [|e a He Ha IH]; intros b Hb Heq.
  - destruct b; [reflexivity |]. rewrite hex_body_cons in Heq. discriminate.
  - destruct Hb as [|f b Hf Hb]; [rewrite hex_body_cons in Heq; discriminate |].
    rewrite !hex_body_cons in Heq. injection Heq as Hhi Hlo Hrest.
    f_equal; [| now apply IH].
    apply hex2_inj; [assumption .. |]. unfold hex2. now rewrite Hhi, Hlo.
Qed.

(** X4: [bytesToHex] loses nothing: two byte arrays with the same
    hexadecimal string are the same array, so two public keys never share
    an [nft_receiver]. *)
Theorem bytesToHex_injective (a b : bytes) :
  Forall is_byte a -> Forall is_byte b -> bytesToHex a = bytesToHex b -> a = b.
Proof.
  intros Ha Hb. rewrite !bytesToHex_hex_body by assumption.
  change ("0x" +:+ hex_body a) with (String "0" (String "x" (hex_body a))).
  change ("0x" +:+ hex_body b) with (String "0" (String "x" (hex_body b))).
  intros [= Heq]. now apply hex_body_inj.
Qed.

Section Encoding.
Context `{Platform}.

(** X1: for a non-empty identifier array, the identifier that [buyNFT] and
    [checkPayment] send is the decimal form of the big-endian value of its
    elements, each taken modulo 256. *)
Theorem encoded_id_value (nftId : list Z) :
  nftId <> [] ->
  encoded_id nftId = Ok (decimal (be_value_from 0 (Uint8Array_from nftId))).
Proof.
  intros Hne. unfold encoded_id.
  apply hexToNumberString_bytesToHex; [apply Uint8Array_from_bytes |].
  destruct nftId; [congruence | discriminate].
Qed.

Lemma encoded_id_leading_zero (z : Z) (nftId : list Z) :
  ToUint8 z = 0 -> nftId <> [] -> encoded_id (z :: nftId) = encoded_id nftId.
Proof.
  intros Hz Hne. unfold encoded_id.
  rewrite !hexToNumberString_bytesToHex;
    try apply Uint8Array_from_bytes; try discriminate;
    [| destruct nftId; [congruence | discriminate]].
  unfold Uint8Array_from. simpl map. rewrite Hz. reflexivity.
Qed.

(** X2: a leading element that is zero modulo 256 does not show in the
    identifier: with it or without it, [checkPayment] and the query of
    [buyNFT] are the same. *)
Theorem leading_zero_is_dropped (z : Z) (nftId : list Z) (paymentSender : string)
    (s : state) :
  ToUint8 z = 0 ->
  nftId <> [] ->
  checkPayment (z :: nftId) s = checkPayment nftId s /\
  buyNftQuery paymentSender (z :: nftId) s = buyNftQuery paymentSender nftId s.
Proof.
  intros Hz Hne. pose proof (encoded_id_leading_zero z nftId Hz Hne) as Heq.
  unfold encoded_id in Heq. unfold checkPayment, buyNftQuery.
  now rewrite Heq.
Qed.

(** X3: among byte arrays of one length the identifier is unambiguous:
    two non-empty byte arrays of the same length with the same identifier
    are equal. *)
Theorem encoded_id_injective (a b : bytes) :
  Forall is_byte a -> Forall is_byte b ->
  length a = length b -> a <> [] ->
  encoded_id a = encoded_id b ->
  a = b.
Proof.
  intros Ha Hb Hlen Hne.
  assert (Hnb : b <> []) by (destruct a, b; try congruence; discriminate).
  unfold encoded_id, Uint8Array_from.
  rewrite !Uint8Array_from_id, !hexToNumberString_bytesToHex by assumption.
  intros [= Heq]. apply decimal_inj in Heq. now apply be_value_inj.
Qed.
End Encoding.

(** ** More on local storage *)

Section StorageAccess.
Context `{Platform}.

(** X5: [setLocalStorage] never throws, whatever the value and whether or
    not [setItem] throws; it leaves every other entry, the random source
    and the network as they were. *)
Theorem setLocalStorage_contained (key other : string) (value : jsval) (s : state) :
  other <> key ->
  fst (setLocalStorage key value s) = Ok tt /\
  items (localStorage (snd (setLocalStorage key value s))) !! other =
    items (localStorage s) !! other /\
  draws (snd (setLocalStorage key value s)) = draws s /\
  network (snd (setLocalStorage key value s)) = network s.
Proof.
  intros Hother.
  unfold setLocalStorage, try_catch, localStorage_setItem, console_error, modify.
  destruct (setItem_throws (localStorage s)); simpl; repeat split.
  now apply lookup_insert_ne.
Qed.

Lemma setLocalStorage_state (key : string) (value : jsval) (s : state) :
  snd (setLocalStorage key value s) =
  match setItem_throws (localStorage s) with
  | None => set_items (insert key (JSON_stringify value)) s
  | Some e => print (ConsoleError [LStr "Error storing data in localStorage:"; LExn e]) s
  end.
Proof.
  unfold setLocalStorage, try_catch, localStorage_setItem, console_error, modify.
  destruct (setItem_throws (localStorage s)); reflexivity.
Qed.

(** X6: what [setLocalStorage] stores, [getLocalStorage] reads back: with
    operational storage, and a value whose JSON text is not empty and
    parses back to it, reading the key after writing it yields the
    value. *)
Theorem getLocalStorage_after_set (key : string) (value : jsval) (s : state)
    (c : ascii) (text : string) :
  storage_operational s ->
  JSON_stringify value = String c text ->
  JSON_parse (String c text) = Ok value ->
  getLocalStorage key (snd (setLocalStorage key value s)) =
  (Ok value, snd (setLocalStorage key value s)).
Proof.
  intros [Hget Hset] Htext Hparse.
  rewrite setLocalStorage_state, Hset, getLocalStorage_run. simpl.
  now rewrite Hget, lookup_insert_eq, Htext, Hparse.
Qed.

(** X7: writing one key does not change what is read under another. *)
Theorem getLocalStorage_other_key (key other : string) (value : jsval) (s : state) :
  other <> key ->
  fst (getLocalStorage other (snd (setLocalStorage key value s))) =
  fst (getLocalStorage other s).
Proof.
  intros Hother. rewrite setLocalStorage_state, !getLocalStorage_run.
  destruct (setItem_throws (localStorage s)); simpl.
  - destruct (getItem_throws (localStorage s)); [reflexivity |].
    destruct (items (localStorage s) !! other) as [[|c text]|]; try reflexivity.
    destruct (JSON_parse (String c text)); reflexivity.
  - rewrite lookup_insert_ne by congruence.
    destruct (getItem_throws (localStorage s)); [reflexivity |].
    destruct (items (localStorage s) !! other) as [[|c text]|]; try reflexivity.
    destruct (JSON_parse (String c text)); reflexivity.
Qed.

(** X8: [getLocalStorage] never throws and never writes: it always
    returns a value, and leaves local storage, the random source and the
    network as they were. *)
Theorem getLocalStorage_never_throws (key : string) (s : state) :
  exists v,
    fst (getLocalStorage key s) = Ok v /\
    localStorage (snd (getLocalStorage key s)) = localStorage s /\
    draws (snd (getLocalStorage key s)) = draws s /\
    network (snd (getLocalStorage key s)) = network s.
Proof.
  destruct (getLocalStorage_total key s) as (v & s0 & Hrun & Hl & Hd & Hn).
  exists v. rewrite Hrun. auto.
Qed.

Lemma getLocalStorage_absent (key : string) (s : state) :
  getItem_throws (localStorage s) = None ->
  items (localStorage s) !! key = None \/ items (localStorage s) !! key = Some "" ->
  getLocalStorage key s = (Ok JNull, s).
Proof.
  intros Hget Hitem. rewrite getLocalStorage_run, Hget.
  destruct Hitem as [-> | ->]; reflexivity.
Qed.

(** X9: a missing entry and an entry holding the empty string both read
    as [null], without a word on the console. *)
Theorem getLocalStorage_missing (key : string) (s : state) :
  getItem_throws (localStorage s) = None ->
  items (localStorage s) !! key = None \/ items (localStorage s) !! key = Some "" ->
  getLocalStorage key s = (Ok JNull, s) /\
  console (snd (getLocalStorage key s)) = console s.
Proof.
  intros Hget Hitem. rewrite (getLocalStorage_absent key s Hget Hitem). auto.
Qed.
End StorageAccess.

(** ** More on the identity key *)

Section IdentityKey.
Context `{Platform}.

(** X10: [getPrivateKey] keeps to its own entry: every other entry of
    local storage and the network log are as before, and it draws at most
    one random key. *)
Theorem getPrivateKey_contained (other : string) (s : state) :
  other <> "my-private-key" ->
  items (localStorage (snd (getPrivateKey s))) !! other = items (localStorage s) !! other /\
  network (snd (getPrivateKey s)) = network s /\
  (draws (snd (getPrivateKey s)) = draws s \/ draws (snd (getPrivateKey s)) = S (draws s)).
Proof.
  intros Hother.
  pose (kept := fun s2 : state =>
          items (localStorage s2) !! other = items (localStorage s) !! other /\
          network s2 = network s /\
          (draws s2 = draws s \/ draws s2 = S (draws s))).
  enough (Hkept : kept (snd (getPrivateKey s))) by exact Hkept.
  assert (Hsame : forall s2 s3, same_browser s2 s3 -> kept s3 -> kept s2).
  { intros s2 s3 (Hl & Hd & Hn). unfold kept. now rewrite Hl, Hd, Hn. }
  destruct (getLocalStorage_total "my-private-key" s) as (seed & s0 & Hread & Hs0).
  assert (Hk0 : kept s0).
  { apply (Hsame s0 s Hs0). unfold kept. auto. }
  assert (Hk1 : forall privKey, kept (after_store "my-private-key" privKey (next_draw s0))).
  { intros privKey. destruct Hs0 as (Hl & Hd & Hn). unfold kept, after_store.
    destruct (setItem_throws (localStorage (next_draw s0))); simpl;
      rewrite ?lookup_insert_ne by congruence; rewrite Hl, Hd, Hn; auto. }
  unfold getPrivateKey, bind at 1. rewrite Hread.
  destruct seed; try exact Hk0.
  unfold bind at 1. unfold ed_utils_randomPrivateKey.
  destruct (randomPrivateKey (draws s0)) as [privKey|e].
  - unfold bind at 1. rewrite setLocalStorage_run.
    unfold bind, lift, console_log, modify, ret.
    destruct (getPublicKeyAsync privKey); simpl; [| apply Hk1].
    apply (Hsame _ _ (same_browser_print _ _)), Hk1.
  - simpl. destruct Hs0 as (Hl & Hd & Hn). unfold kept. simpl.
    rewrite Hl, Hd, Hn. auto.
Qed.

Lemma getPrivateKey_stored_value (s : state) (c : ascii) (text : string) (v : jsval) :
  getItem_throws (localStorage s) = None ->
  identity_entry s = Some (String c text) ->
  JSON_parse (String c text) = Ok v ->
  v <> JNull ->
  getPrivateKey s = (new_Uint8Array v, s).
Proof.
  intros Hget Hitem Hparse Hv. unfold identity_entry in Hitem.
  unfold getPrivateKey, bind at 1.
  rewrite getLocalStorage_run, Hget, Hitem, Hparse.
  destruct v; try congruence; reflexivity.
Qed.

(** X11: a stored array of numbers is returned element by element modulo
    256, without drawing a key, writing or printing anything. *)
Theorem getPrivateKey_stored (s : state) (c : ascii) (text : string) (ns : list Z) :
  getItem_throws (localStorage s) = None ->
  identity_entry s = Some (String c text) ->
  JSON_parse (String c text) = Ok (JArr (map JNum ns)) ->
  getPrivateKey s = (Ok (map ToUint8 ns), s).
Proof.
  intros Hget Hitem Hparse.
  rewrite (getPrivateKey_stored_value s c text _ Hget Hitem Hparse) by discriminate.
  unfold new_Uint8Array. now rewrite numbers_of_JNum.
Qed.

(** X12: on first use, when the entry is missing or empty and storage is
    operational, [getPrivateKey] returns the key it draws and leaves its
    JSON text in the entry. *)
Theorem getPrivateKey_first_use (s : state) (privKey publicKey : bytes) :
  storage_operational s ->
  identity_entry s = None \/ identity_entry s = Some "" ->
  randomPrivateKey (draws s) = Ok privKey ->
  getPublicKeyAsync privKey = Ok publicKey ->
  fst (getPrivateKey s) = Ok privKey /\
  identity_entry (snd (getPrivateKey s)) = Some (JSON_stringify (Array_from privKey)) /\
  draws (snd (getPrivateKey s)) = S (draws s).
Proof.
  intros [Hget Hset] Hitem Hdraw Hpk.
  pose proof (getLocalStorage_absent "my-private-key" s Hget Hitem) as Hread.
  rewrite (getPrivateKey_fresh s s privKey publicKey Hread Hdraw Hpk).
  unfold after_store, identity_entry. simpl. rewrite Hset. simpl.
  now rewrite lookup_insert_eq.
Qed.

Lemma getPrivateKey_fresh_throw (s s0 : state) (privKey : bytes) (e : exn) :
  getLocalStorage "my-private-key" s = (Ok JNull, s0) ->
  randomPrivateKey (draws s0) = Ok privKey ->
  getPublicKeyAsync privKey = Throw e ->
  getPrivateKey s = (Throw e, after_store "my-private-key" privKey (next_draw s0)).
Proof.
  intros Hread Hdraw Hpk. unfold getPrivateKey, bind at 1. rewrite Hread.
  unfold bind at 1. unfold ed_utils_randomPrivateKey. rewrite Hdraw.
  unfold bind at 1. rewrite setLocalStorage_run.
  unfold bind, lift. now rewrite Hpk.
Qed.

(** A key whose JSON text is in the entry is what [getPrivateKey]
    returns. *)
Lemma getPrivateKey_reads_back (s : state) (k : bytes) :
  getItem_throws (localStorage s) = None ->
  identity_entry s = Some (JSON_stringify (Array_from k)) ->
  Forall is_byte k ->
  json_round_trips k ->
  getPrivateKey s = (Ok k, s).
Proof.
  intros Hget Hitem Hbytes (c & text & Htext & Hparse). rewrite Htext in Hitem.
  rewrite (getPrivateKey_stored_value s c text _ Hget Hitem Hparse) by discriminate.
  now rewrite new_Uint8Array_Array_from.
Qed.

(** X13: the key is stored before its public key is derived.  If the
    derivation throws on first use, [getPrivateKey] rejects, but the key
    it drew is already in the entry and the next call returns it. *)
Theorem getPrivateKey_rejects_after_storing (s : state) (privKey : bytes) (e : exn) :
  storage_operational s ->
  identity_entry s = None ->
  randomPrivateKey (draws s) = Ok privKey ->
  getPublicKeyAsync privKey = Throw e ->
  Forall is_byte privKey ->
  json_round_trips privKey ->
  fst (getPrivateKey s) = Throw e /\
  getPrivateKey (snd (getPrivateKey s)) = (Ok privKey, snd (getPrivateKey s)).
Proof.
  intros [Hget Hset] Hitem Hdraw Hpk Hbytes Hjson.
  pose proof (getLocalStorage_absent "my-private-key" s Hget (or_introl Hitem)) as Hread.
  rewrite (getPrivateKey_fresh_throw s s privKey e Hread Hdraw Hpk).
  split; [reflexivity |]. simpl snd.
  apply getPrivateKey_reads_back; try assumption.
  - unfold after_store. simpl. rewrite Hset. exact Hget.
  - unfold after_store, identity_entry. simpl. rewrite Hset. simpl.
    apply lookup_insert_eq.
Qed.
End IdentityKey.

(** ** More on the listings *)

Section ListingsFetch.
Context `{Platform}.

(** [getForSaleNFTs], step by step. *)
Lemma getForSaleNFTs_run (s : state) :
  let s1 := issue listing_request (print (ConsoleLog [LStr "get for sale called."]) s) in
  let caught e := (Ok [], print (ConsoleError [LStr "Error in fetch:"; LExn e]) s1) in
  getForSaleNFTs s =
  match fetch_outcome (network s) listing_request with
  | Throw e => caught e
  | Ok r =>
      if ok r then
        match json r with
        | Throw e => caught e
        | Ok jsonData =>
            match iterate jsonData with
            | Throw e => caught e
            | Ok elements =>
                (Ok (push_listings elements []),
                 print (ConsoleLog [LNum (Z.of_nat (length (push_listings elements [])))]) s1)
            end
        end
      else
        (Ok [], print (ConsoleError [LStr "Request failed with status:"; LNum (status r)]) s1)
  end.
Proof.
  unfold getForSaleNFTs, bind at 1. simpl.
  fold listing_request. unfold try_catch, bind, fetch, lift. simpl.
  destruct (fetch_outcome (network s) listing_request) as [r|e]; [| reflexivity].
  destruct (ok r); [| reflexivity].
  destruct (json r) as [jsonData|e]; [| reflexivity].
  destruct (iterate jsonData); reflexivity.
Qed.

(** X14: [getForSaleNFTs] never rejects; it issues exactly one request,
    the GET for the listings, and leaves local storage and the random
    source alone. *)
Theorem getForSaleNFTs_never_rejects (s : state) :
  (exists listings, fst (getForSaleNFTs s) = Ok listings) /\
  network (snd (getForSaleNFTs s)) = network s ++ [listing_request] /\
  localStorage (snd (getForSaleNFTs s)) = localStorage s /\
  draws (snd (getForSaleNFTs s)) = draws s.
Proof.
  pose proof (getForSaleNFTs_run s) as Hrun. cbv zeta in Hrun. rewrite Hrun.
  destruct (fetch_outcome (network s) listing_request) as [r|e]; [| simpl; eauto].
  destruct (ok r); [| simpl; eauto].
  destruct (json r) as [jsonData|e]; [| simpl; eauto].
  destruct (iterate jsonData); simpl; eauto.
Qed.

(** X15: whatever the server sent, every listing that [getForSaleNFTs]
    returns has [price] 10 and [currency_symbol] "PVL"; a price in the
    fetched record is overwritten. *)
Theorem getForSaleNFTs_prices (s : state) (listings : list NFT) (nft : NFT) :
  fst (getForSaleNFTs s) = Ok listings ->
  In nft listings ->
  nft !! "price" = Some (JNum 10) /\ nft !! "currency_symbol" = Some (JStr "PVL").
Proof.
  pose proof (getForSaleNFTs_run s) as Hrun. cbv zeta in Hrun. rewrite Hrun.
  assert (Hnil : Ok (@nil NFT) = Ok listings -> In nft listings -> 
                 nft !! "price" = Some (JNum 10) /\
                 nft !! "currency_symbol" = Some (JStr "PVL"))
    by (intros [= <-] []).
  destruct (fetch_outcome (network s) listing_request) as [r|e]; [| exact Hnil].
  destruct (ok r); [| exact Hnil].
  destruct (json r) as [jsonData|e]; [| exact Hnil].
  destruct (iterate jsonData) as [elements|e]; [| exact Hnil].
  simpl. intros [= <-]. rewrite push_listings_map. simpl.
  intros Hin. apply in_map_iff in Hin as (fetched & <- & _).
  split; [apply listed_price | apply listed_currency_symbol].
Qed.

(** X16: a 2xx answer whose body is not JSON, or is JSON that cannot be
    iterated over (a number, an object, [null]), gives the empty list. *)
Theorem getForSaleNFTs_unreadable_body (s : state) (r : response) :
  fetch_outcome (network s) listing_request = Ok r ->
  ok r = true ->
  (exists e, json r = Throw e) \/
  (exists v e, json r = Ok v /\ iterate v = Throw e) ->
  fst (getForSaleNFTs s) = Ok [].
Proof.
  intros Hr Hok Hbody.
  pose proof (getForSaleNFTs_run s) as Hrun. cbv zeta in Hrun. rewrite Hrun, Hr, Hok.
  destruct Hbody as [[e ->] | (v & e & -> & ->)]; reflexivity.
Qed.
End ListingsFetch.

(** ** More on the payment check *)

Section PaymentCheck.
Context `{Platform}.

(** X17: for a non-empty identifier and a server that answers,
    [checkPayment] returns [true] exactly when the status is from 200 to
    299, and [false] otherwise. *)
Theorem checkPayment_true_iff_2xx (nft_id : list Z) (s : state) (r : response) :
  nft_id <> [] ->
  fetch_outcome (network s)
    (payment_request (decimal (be_value_from 0 (Uint8Array_from nft_id)))) = Ok r ->
  (fst (checkPayment nft_id s) = Ok true <-> 200 <= status r <= 299) /\
  (fst (checkPayment nft_id s) = Ok false <-> ~ 200 <= status r <= 299).
Proof.
  intros Hne Hr.
  assert (Hid : hexToNumberString (bytesToHex (Uint8Array_from nft_id)) =
                Ok (decimal (be_value_from 0 (Uint8Array_from nft_id)))).
  { apply hexToNumberString_bytesToHex; [apply Uint8Array_from_bytes |].
    destruct nft_id; [congruence | discriminate]. }
  rewrite (checkPayment_run _ _ _ Hid), Hr.
  assert (Hok : ok r = true <-> 200 <= status r <= 299)
    by (unfold ok; rewrite andb_true_iff, !Z.leb_le; tauto).
  destruct (ok r); simpl.
  - assert (Hin : 200 <= status r <= 299) by now apply Hok.
    split; split; try discriminate; try reflexivity; [intros _; exact Hin | contradiction].
  - assert (Hout : ~ 200 <= status r <= 299)
      by (intros Hin; apply Hok in Hin; discriminate).
    split; split; try discriminate; try reflexivity; [contradiction | intros _; exact Hout].
Qed.

Lemma checkPayment_unencodable_aux (nft_id : list Z) (s : state) (e : exn) :
  encoded_id nft_id = Throw e ->
  checkPayment nft_id s = (Throw e, s).
Proof.
  unfold encoded_id. intros Hid. unfold checkPayment, bind, lift. now rewrite Hid.
Qed.

(** X18: when the identifier cannot be encoded, [checkPayment] rejects
    before any request is issued, and nothing in the browser changes. *)
Theorem checkPayment_unencodable (nft_id : list Z) (s : state) (e : exn) :
  encoded_id nft_id = Throw e ->
  nft_id = [] /\
  checkPayment nft_id s = (Throw e, s) /\
  network (snd (checkPayment nft_id s)) = network s.
Proof.
  intros Hid. split; [| rewrite (checkPayment_unencodable_aux _ _ _ Hid); auto].
  destruct nft_id as [|z rest]; [reflexivity | exfalso].
  unfold encoded_id in Hid.
  rewrite hexToNumberString_bytesToHex in Hid;
    [discriminate | apply Uint8Array_from_bytes | discriminate].
Qed.

(** X19: [checkPayment] issues at most one request, and it is a GET of
    the check-payment URL followed by a decimal identifier; it never
    touches local storage or the random source. *)
Theorem checkPayment_contained (nft_id : list Z) (s : state) :
  localStorage (snd (checkPayment nft_id s)) = localStorage s /\
  draws (snd (checkPayment nft_id s)) = draws s /\
  (network (snd (checkPayment nft_id s)) = network s \/
   exists id, encoded_id nft_id = Ok id /\
              network (snd (checkPayment nft_id s)) = network s ++ [payment_request id]).
Proof.
  destruct (encoded_id nft_id) as [id|e] eqn:Hid.
  - unfold encoded_id in Hid. rewrite (checkPayment_run _ _ _ Hid).
    destruct (fetch_outcome _ _) as [r|e]; [destruct (ok r) |]; simpl; eauto 6.
  - rewrite (checkPayment_unencodable_aux nft_id s e Hid). simpl. auto.
Qed.
End PaymentCheck.

(** ** More on purchases *)

Section PurchaseFlow.
Context `{Platform}.

(** [buyNFT] in terms of the query block run after the first console
    line. *)
Lemma buyNFT_run (paymentSender : string) (nftId : list Z) (s : state) :
  let s0 := print (ConsoleLog [LStr "get for sale called."]) s in
  buyNFT paymentSender nftId s =
  match buyNftQuery paymentSender nftId s0 with
  | (Ok q, s1) =>
      let s2 := issue (buy_request q) (print (ConsoleLog [LVal (BuyNftQuery_object q)]) s1) in
      match fetch_outcome (network s1) (buy_request q) with
      | Ok _ => (Ok tt, s2)
      | Throw e => (Ok tt, print (ConsoleLog [LExn e]) s2)
      end
  | (Throw e, s1) => (Ok tt, print (ConsoleLog [LExn e]) s1)
  end.
Proof.
  unfold buyNFT, bind at 1. simpl.
  unfold try_catch, bind, fetch, console_log, modify, ret.
  destruct (buyNftQuery paymentSender nftId _) as [[q|e] s1]; [| reflexivity].
  simpl. fold (buy_request q).
  destruct (fetch_outcome (network s1) (buy_request q)); reflexivity.
Qed.

(** X20: when the key, the public key or the identifier cannot be
    obtained, [buyNFT] sends nothing: the network log is unchanged, the
    error is the last line on the console, and the call still completes
    normally. *)
Theorem buyNFT_failure_sends_nothing (paymentSender : string) (nftId : list Z)
    (s : state) (e : exn) :
  fst (buyNftQuery paymentSender nftId s) = Throw e ->
  fst (buyNFT paymentSender nftId s) = Ok tt /\
  network (snd (buyNFT paymentSender nftId s)) = network s /\
  last (console (snd (buyNFT paymentSender nftId s))) = Some (ConsoleLog [LExn e]).
Proof.
  intros Hq. pose proof (buyNFT_run paymentSender nftId s) as Hrun.
  cbv zeta in Hrun. rewrite Hrun. clear Hrun.
  set (s0 := print (ConsoleLog [LStr "get for sale called."]) s).
  destruct (blind_buyNftQuery paymentSender nftId s0 s (same_browser_print _ s))
    as [Hr _].
  rewrite Hq in Hr.
  pose proof (buyNftQuery_state paymentSender nftId s0) as Hs.
  pose proof (getPrivateKey_network s0) as Hn. rewrite <- Hs in Hn.
  destruct (buyNftQuery paymentSender nftId s0) as [r s1].
  simpl in Hr, Hn. subst r. simpl.
  repeat split; [exact Hn | apply last_snoc].
Qed.

(** X21: apart from the console and the one request it may issue,
    [buyNFT] changes the browser exactly as [getPrivateKey] alone would:
    local storage and the random source end up the same. *)
Theorem buyNFT_storage_as_getPrivateKey (paymentSender : string) (nftId : list Z)
    (s : state) :
  localStorage (snd (buyNFT paymentSender nftId s)) = localStorage (snd (getPrivateKey s)) /\
  draws (snd (buyNFT paymentSender nftId s)) = draws (snd (getPrivateKey s)) /\
  (network (snd (buyNFT paymentSender nftId s)) = network s \/
   exists q, network (snd (buyNFT paymentSender nftId s)) = network s ++ [buy_request q]).
Proof.
  pose proof (buyNFT_run paymentSender nftId s) as Hrun.
  cbv zeta in Hrun. rewrite Hrun. clear Hrun.
  set (s0 := print (ConsoleLog [LStr "get for sale called."]) s).
  destruct (blind_buyNftQuery paymentSender nftId s0 s (same_browser_print _ s))
    as [_ (Hl & Hd & Hn)].
  rewrite (buyNftQuery_state paymentSender nftId s) in Hl, Hd, Hn.
  rewrite getPrivateKey_network in Hn.
  destruct (buyNftQuery paymentSender nftId s0) as [[q|e] s1]; simpl in Hl, Hd, Hn.
  - destruct (fetch_outcome (network s1) (buy_request q)); simpl;
      rewrite Hl, Hd, Hn; eauto.
  - simpl. rewrite Hl, Hd, Hn. auto.
Qed.

(** With operational storage, a call of [getPrivateKey] that returned [k]
    leaves a browser in which it returns [k] again. *)
Lemma getPrivateKey_again (s : state) (k : bytes) :
  storage_operational s ->
  fst (getPrivateKey s) = Ok k ->
  Forall is_byte k ->
  json_round_trips k ->
  getPrivateKey (snd (getPrivateKey s)) = (Ok k, snd (getPrivateKey s)).
Proof.
  intros [Hget Hset] Hk Hbytes Hjson.
  destruct (getLocalStorage_total "my-private-key" s) as (seed & s0 & Hread & Hl0 & Hd0 & Hn0).
  assert (Hnull : seed = JNull \/ seed <> JNull)
    by (destruct seed; auto; right; discriminate).
  destruct Hnull as [-> | Hseed].
  - revert Hk. unfold getPrivateKey at 1, bind at 1. rewrite Hread.
    unfold bind at 1. unfold ed_utils_randomPrivateKey.
    destruct (randomPrivateKey (draws s0)) as [privKey|e] eqn:Hdraw; [| discriminate].
    unfold bind at 1. rewrite setLocalStorage_run.
    unfold bind at 1, lift at 1.
    destruct (getPublicKeyAsync privKey) as [publicKey|e] eqn:Hpk; [| discriminate].
    simpl. intros [= ->].
    rewrite (getPrivateKey_fresh s s0 k publicKey Hread Hdraw Hpk). simpl snd.
    rewrite <- Hl0 in Hget, Hset.
    apply getPrivateKey_reads_back; try assumption.
    + unfold after_store. simpl. rewrite Hset. exact Hget.
    + unfold after_store, identity_entry. simpl. rewrite Hset. simpl.
      apply lookup_insert_eq.
  - pose proof (getLocalStorage_value _ _ _ _ Hread Hseed) as ->.
    assert (Hrun : getPrivateKey s = (new_Uint8Array seed, s)).
    { unfold getPrivateKey, bind at 1. rewrite Hread. destruct seed; try congruence; reflexivity. }
    rewrite Hrun in Hk |- *. simpl in Hk |- *. now rewrite Hrun, Hk.
Qed.

(** X22: a browser with operational storage keeps one receiver: once a
    purchase query has been built with the identity key [k], any later
    query built in the browser it left names the same [nft_receiver],
    whatever the sender and the identifier. *)
Theorem buyNFT_same_receiver_again
    (s s1 : state) (sender1 sender2 : string) (id1 id2 : list Z)
    (k : bytes) (q1 q2 : BuyNftQuery) :
  storage_operational s ->
  fst (getPrivateKey s) = Ok k ->
  Forall is_byte k ->
  json_round_trips k ->
  buyNftQuery sender1 id1 s = (Ok q1, s1) ->
  fst (buyNftQuery sender2 id2 s1) = Ok q2 ->
  nft_receiver q2 = nft_receiver q1.
Proof.
  intros Hop Hk Hbytes Hjson Hq1 Hq2.
  pose proof (getPrivateKey_again s k Hop Hk Hbytes Hjson) as Hagain.
  pose proof (buyNftQuery_state sender1 id1 s) as Hs1. rewrite Hq1 in Hs1. simpl in Hs1.
  rewrite <- Hs1 in Hagain.
  assert (Hq1' : fst (buyNftQuery sender1 id1 s) = Ok q1) by now rewrite Hq1.
  apply buyNftQuery_inv in Hq1' as (k1 & p1 & Hk1 & Hp1 & _ & _ & ->).
  apply buyNftQuery_inv in Hq2 as (k2 & p2 & Hk2 & Hp2 & _ & _ & ->).
  rewrite Hk in Hk1. injection Hk1 as <-.
  rewrite Hagain in Hk2. injection Hk2 as <-.
  rewrite Hp1 in Hp2. now injection Hp2 as <-.
Qed.
End PurchaseFlow.

(** ** The module on the recorded platform *)

Import Recorded.

Lemma public1_bytes : Forall is_byte public1.
Proof. repeat constructor; unfold is_byte; lia. Defined.

Lemma seed1_bytes : Forall is_byte seed1.
Proof. repeat constructor; unfold is_byte; lia. Defined.

(** C1 (where the module falls short): with the server unreachable,
    [fetch] rejects with a [TypeError]; [checkPayment] has no handler and
    rejects with it instead of returning [false], whereas the sibling
    [getForSaleNFTs] catches the same rejection and returns its fallback. *)
Theorem checkPayment_rejects_when_unreachable :
  fst (@checkPayment offline [1; 2; 3] new_profile) = Throw (TypeError "Failed to fetch") /\
  fst (@getForSaleNFTs offline new_profile) = Ok [].
Proof. split; reflexivity. Qed.

(** C2 (the claim as stated fails): on a new profile the query posted for
    bytes [1,2,3] and sender "addr1" has an [nft_receiver] of 66
    characters, the first two being "0x"; it is not a 64-character
    string. *)
Lemma buyNFT_receiver_has_66_characters :
  let q := {| nft_id := "66051"; payment_sender := "addr1";
              nft_receiver :=
                "0xd75a980182b10ab7d54bfed3c964073a0ee172f3daa62325af021a68f707511a" |} in
  fst (@buyNftQuery online "addr1" [1; 2; 3] new_profile) = Ok q /\
  network (snd (@buyNFT online "addr1" [1; 2; 3] new_profile)) = [@buy_request online q] /\
  String.length (nft_receiver q) = 66%nat /\
  String.length (nft_receiver q) <> 64%nat.
Proof. repeat split. discriminate. Qed.

(** C2 on a new profile of the recorded platform. *)
Lemma buyNFT_request_010203_witness :
  fst (@getPrivateKey online new_profile) = Ok seed1 /\
  @getPublicKeyAsync online seed1 = Ok public1 /\
  Forall is_byte public1 /\
  length public1 = 32%nat /\
  let q := {| nft_id := "66051"; payment_sender := "addr1";
              nft_receiver := "0x" +:+ hex_body public1 |} in
  network (snd (@buyNFT online "addr1" [1; 2; 3] new_profile)) =
    network new_profile ++ [@buy_request online q] /\
  decimal (be_value_from 0 [1; 2; 3]) = "66051" /\
  String.length (hex_body public1) = 64%nat /\
  String.length (nft_receiver q) = 66%nat.
Proof.
  assert (Hkey : fst (@getPrivateKey online new_profile) = Ok seed1) by reflexivity.
  assert (Hpk : @getPublicKeyAsync online seed1 = Ok public1) by reflexivity.
  assert (Hlen : length public1 = 32%nat) by reflexivity.
  refine (conj Hkey (conj Hpk (conj public1_bytes (conj Hlen _)))).
  apply (@buyNFT_request_010203 online new_profile seed1 public1 Hkey Hpk public1_bytes Hlen).
Defined.

(** C4 (the claim as stated fails): with local storage blocked, two calls
    in sequence return two different keys, although nothing was stored or
    changed in between. *)
Lemma getPrivateKey_two_keys :
  let first := @getPrivateKey offline blocked_storage in
  let second := @getPrivateKey offline (snd first) in
  fst first = Ok seed1 /\
  fst second = Ok seed2 /\
  seed1 <> seed2 /\
  localStorage (snd first) = localStorage blocked_storage /\
  localStorage (snd second) = localStorage blocked_storage.
Proof. repeat split. discriminate. Qed.

(** C4 on a new profile: the first call draws and stores the first
    recorded seed, the second reads it back. *)
Lemma getPrivateKey_idempotent_witness :
  let s1 := snd (@getPrivateKey online new_profile) in
  storage_operational new_profile /\
  @getPrivateKey online new_profile = (Ok seed1, s1) /\
  Forall is_byte seed1 /\
  @json_round_trips online seed1 /\
  @getPrivateKey online s1 = (Ok seed1, s1).
Proof.
  intros s1.
  assert (Hop : storage_operational new_profile) by (split; reflexivity).
  assert (Hrun : @getPrivateKey online new_profile = (Ok seed1, s1)) by reflexivity.
  assert (Hjson : @json_round_trips online seed1)
    by (eexists _, _; split; reflexivity).
  refine (conj Hop (conj Hrun (conj seed1_bytes (conj Hjson _)))).
  apply (@getPrivateKey_idempotent online new_profile s1 seed1 Hop Hrun seed1_bytes Hjson).
Defined.

(** C6 with local storage blocked. *)
Lemma getPrivateKey_read_failure_witness :
  @storage_read_fails offline blocked_storage /\
  @randomPrivateKey offline (draws blocked_storage) = Ok seed1 /\
  @getPublicKeyAsync offline seed1 = Ok public1 /\
  fst (@getLocalStorage offline "my-private-key" blocked_storage) = Ok JNull /\
  fst (@getPrivateKey offline blocked_storage) = Ok seed1 /\
  draws (snd (@getPrivateKey offline blocked_storage)) = S (draws blocked_storage) /\
  items (localStorage (snd (@getPrivateKey offline blocked_storage))) =
    match setItem_throws (localStorage blocked_storage) with
    | None => <["my-private-key" := @JSON_stringify offline (Array_from seed1)]>
                (items (localStorage blocked_storage))
    | Some _ => items (localStorage blocked_storage)
    end.
Proof.
  assert (Hfail : @storage_read_fails offline blocked_storage)
    by (left; eexists; reflexivity).
  assert (Hdraw : @randomPrivateKey offline (draws blocked_storage) = Ok seed1)
    by reflexivity.
  assert (Hpk : @getPublicKeyAsync offline seed1 = Ok public1) by reflexivity.
  refine (conj Hfail (conj Hdraw (conj Hpk _))).
  apply (@getPrivateKey_read_failure offline blocked_storage seed1 public1 Hfail Hdraw Hpk).
Defined.

(** C8 on two browsers, two senders and two identifiers. *)
Lemma public_key_depends_on_seed_only_witness :
  let q1 := {| nft_id := "66051"; payment_sender := "addr1";
               nft_receiver := bytesToHex public1 |} in
  let q2 := {| nft_id := "255"; payment_sender := "addr2";
               nft_receiver := bytesToHex public1 |} in
  fst (@getPrivateKey online new_profile) = Ok seed1 /\
  fst (@getPrivateKey online blocked_storage) = Ok seed1 /\
  fst (@buyNftQuery online "addr1" [1; 2; 3] new_profile) = Ok q1 /\
  fst (@buyNftQuery online "addr2" [255] blocked_storage) = Ok q2 /\
  nft_receiver q1 = nft_receiver q2 /\
  snd (@buyNftQuery online "addr1" [1; 2; 3] new_profile) =
    snd (@getPrivateKey online new_profile) /\
  snd (@buyNftQuery online "addr2" [255] blocked_storage) =
    snd (@getPrivateKey online blocked_storage).
Proof.
  intros q1 q2.
  assert (Hk1 : fst (@getPrivateKey online new_profile) = Ok seed1) by reflexivity.
  assert (Hk2 : fst (@getPrivateKey online blocked_storage) = Ok seed1) by reflexivity.
  assert (Hq1 : fst (@buyNftQuery online "addr1" [1; 2; 3] new_profile) = Ok q1)
    by reflexivity.
  assert (Hq2 : fst (@buyNftQuery online "addr2" [255] blocked_storage) = Ok q2)
    by reflexivity.
  refine (conj Hk1 (conj Hk2 (conj Hq1 (conj Hq2 _)))).
  apply (@public_key_depends_on_seed_only online new_profile blocked_storage
             "addr1" "addr2" [1; 2; 3] [255] seed1 q1 q2 Hk1 Hk2 Hq1 Hq2).
Defined.

(** C10 for the bytes [1,2,3]. *)
Lemma buyNFT_checkPayment_same_id_witness :
  let q := {| nft_id := "66051"; payment_sender := "addr1";
              nft_receiver := bytesToHex public1 |} in
  fst (@buyNftQuery online "addr1" [1; 2; 3] new_profile) = Ok q /\
  network (snd (@buyNFT online "addr1" [1; 2; 3] new_profile)) =
    network new_profile ++ [@buy_request online q] /\
  network (snd (@checkPayment online [1; 2; 3] blocked_storage)) =
    network blocked_storage ++ [payment_request (nft_id q)] /\
  url (payment_request (nft_id q)) = "http://127.0.0.1:7000/check-payment/" +:+ nft_id q.
Proof.
  intros q.
  assert (Hq : fst (@buyNftQuery online "addr1" [1; 2; 3] new_profile) = Ok q)
    by reflexivity.
  split; [exact Hq |].
  apply (@buyNFT_checkPayment_same_id online "addr1" [1; 2; 3] new_profile
           blocked_storage q Hq).
Defined.

(** C3 with the server unreachable, answering 404, and answering 200 with
    two listings. *)
Lemma getForSaleNFTs_result_witness :
  fst (@getForSaleNFTs offline new_profile) = Ok [] /\
  fst (@getForSaleNFTs missing new_profile) = Ok [] /\
  fst (@getForSaleNFTs stocked new_profile) = Ok [listed ape; listed cat] /\
  listed cat !! "price" = Some (JNum 10).
Proof.
  destruct (@getForSaleNFTs_result offline new_profile) as (Hthrow & _).
  destruct (@getForSaleNFTs_result missing new_profile) as (_ & Hstatus & _).
  destruct (@getForSaleNFTs_result stocked new_profile) as (_ & _ & Hok & Hlisted).
  repeat apply conj.
  - apply (Hthrow (TypeError "Failed to fetch")). reflexivity.
  - apply (Hstatus {| status := 404; json := Throw (SyntaxError "Unexpected token") |});
      reflexivity.
  - apply (Hok {| status := 200; json := Ok (JArr [JObj ape; JObj cat]) |} [ape; cat]);
      reflexivity.
  - apply Hlisted.
Defined.

(** ** The further properties on the recorded platform *)

Lemma seed1_round_trips : @json_round_trips online seed1.
Proof. eexists _, _; split; reflexivity. Defined.

Lemma seed1_round_trips_underivable : @json_round_trips underivable seed1.
Proof. eexists _, _; split; reflexivity. Defined.

(** X1 for the array [257,2,3], which is taken as [1,2,3]. *)
Lemma encoded_id_value_witness :
  [257; 2; 3] <> [] /\
  @encoded_id online [257; 2; 3] =
    Ok (decimal (be_value_from 0 (Uint8Array_from [257; 2; 3]))).
Proof.
  assert (Hne : [257; 2; 3] <> @nil Z) by discriminate.
  exact (conj Hne (@encoded_id_value online [257; 2; 3] Hne)).
Defined.

(** X2 for [256,1,2,3] and [1,2,3]. *)
Lemma leading_zero_is_dropped_witness :
  ToUint8 256 = 0 /\
  [1; 2; 3] <> [] /\
  @checkPayment online [256; 1; 2; 3] new_profile = @checkPayment online [1; 2; 3] new_profile /\
  @buyNftQuery online "addr1" [256; 1; 2; 3] new_profile =
    @buyNftQuery online "addr1" [1; 2; 3] new_profile.
Proof.
  assert (Hz : ToUint8 256 = 0) by reflexivity.
  assert (Hne : [1; 2; 3] <> @nil Z) by discriminate.
  exact (conj Hz (conj Hne
           (@leading_zero_is_dropped online 256 [1; 2; 3] "addr1" new_profile Hz Hne))).
Defined.

(** X3 for the first recorded seed. *)
Lemma encoded_id_injective_witness :
  Forall is_byte seed1 /\
  length seed1 = length seed1 /\
  seed1 <> [] /\
  @encoded_id online seed1 = @encoded_id online seed1 /\
  seed1 = seed1.
Proof.
  assert (Hne : seed1 <> []) by discriminate.
  exact (conj seed1_bytes (conj eq_refl (conj Hne (conj eq_refl
           (@encoded_id_injective online seed1 seed1 seed1_bytes seed1_bytes
              eq_refl Hne eq_refl))))).
Defined.

(** X4 for the first recorded public key. *)
Lemma bytesToHex_injective_witness :
  Forall is_byte public1 /\
  bytesToHex public1 = bytesToHex public1 /\
  public1 = public1.
Proof.
  exact (conj public1_bytes (conj eq_refl
           (bytesToHex_injective public1 public1 public1_bytes public1_bytes eq_refl))).
Defined.

(** X5 with storage blocked. *)
Lemma setLocalStorage_contained_witness :
  "theme" <> "my-private-key" /\
  fst (@setLocalStorage offline "my-private-key" (JStr "x") blocked_storage) = Ok tt /\
  items (localStorage (snd (@setLocalStorage offline "my-private-key" (JStr "x")
                              blocked_storage))) !! "theme" =
    items (localStorage blocked_storage) !! "theme" /\
  draws (snd (@setLocalStorage offline "my-private-key" (JStr "x") blocked_storage)) =
    draws blocked_storage /\
  network (snd (@setLocalStorage offline "my-private-key" (JStr "x") blocked_storage)) =
    network blocked_storage.
Proof.
  assert (Hne : "theme" <> "my-private-key") by discriminate.
  exact (conj Hne (@setLocalStorage_contained offline "my-private-key" "theme"
                     (JStr "x") blocked_storage Hne)).
Defined.

(** X6 for the first recorded seed on a new profile. *)
Lemma getLocalStorage_after_set_witness :
  storage_operational new_profile /\
  @json_round_trips online seed1 /\
  @getLocalStorage online "k" (snd (@setLocalStorage online "k" (Array_from seed1) new_profile)) =
    (Ok (Array_from seed1), snd (@setLocalStorage online "k" (Array_from seed1) new_profile)).
Proof.
  assert (Hop : storage_operational new_profile) by (split; reflexivity).
  refine (conj Hop (conj seed1_round_trips _)).
  destruct seed1_round_trips as (c & text & Htext & Hparse).
  exact (@getLocalStorage_after_set online "k" (Array_from seed1) new_profile c text
           Hop Htext Hparse).
Defined.

(** X7 for a stored key and a write under another name. *)
Lemma getLocalStorage_other_key_witness :
  "my-private-key" <> "theme" /\
  fst (@getLocalStorage online "my-private-key"
         (snd (@setLocalStorage online "theme" (JStr "dark") returning_profile))) =
    fst (@getLocalStorage online "my-private-key" returning_profile).
Proof.
  assert (Hne : "my-private-key" <> "theme") by discriminate.
  exact (conj Hne (@getLocalStorage_other_key online "theme" "my-private-key"
                     (JStr "dark") returning_profile Hne)).
Defined.

(** X9 on a new profile. *)
Lemma getLocalStorage_missing_witness :
  getItem_throws (localStorage new_profile) = None /\
  items (localStorage new_profile) !! "my-private-key" = None /\
  @getLocalStorage online "my-private-key" new_profile = (Ok JNull, new_profile) /\
  console (snd (@getLocalStorage online "my-private-key" new_profile)) = console new_profile.
Proof.
  assert (Hget : getItem_throws (localStorage new_profile) = None) by reflexivity.
  assert (Hitem : items (localStorage new_profile) !! "my-private-key" = None) by reflexivity.
  exact (conj Hget (conj Hitem
           (@getLocalStorage_missing online "my-private-key" new_profile Hget
              (or_introl Hitem)))).
Defined.

(** X10 on a new profile. *)
Lemma getPrivateKey_contained_witness :
  "theme" <> "my-private-key" /\
  items (localStorage (snd (@getPrivateKey online new_profile))) !! "theme" =
    items (localStorage new_profile) !! "theme" /\
  network (snd (@getPrivateKey online new_profile)) = network new_profile /\
  (draws (snd (@getPrivateKey online new_profile)) = draws new_profile \/
   draws (snd (@getPrivateKey online new_profile)) = S (draws new_profile)).
Proof.
  assert (Hne : "theme" <> "my-private-key") by discriminate.
  exact (conj Hne (@getPrivateKey_contained online "theme" new_profile Hne)).
Defined.

(** X11 for the stored text [1,2,300]: the key read is [1,2,44]. *)
Lemma getPrivateKey_stored_witness :
  getItem_throws (localStorage returning_profile) = None /\
  identity_entry returning_profile = Some "[1,2,300]" /\
  @JSON_parse online "[1,2,300]" = Ok (JArr (map JNum [1; 2; 300])) /\
  @getPrivateKey online returning_profile = (Ok (map ToUint8 [1; 2; 300]), returning_profile) /\
  map ToUint8 [1; 2; 300] = [1; 2; 44].
Proof.
  assert (Hget : getItem_throws (localStorage returning_profile) = None) by reflexivity.
  assert (Hitem : identity_entry returning_profile = Some "[1,2,300]") by reflexivity.
  assert (Hparse : @JSON_parse online "[1,2,300]" = Ok (JArr (map JNum [1; 2; 300])))
    by reflexivity.
  exact (conj Hget (conj Hitem (conj Hparse (conj
           (@getPrivateKey_stored online returning_profile "[" "1,2,300]" [1; 2; 300]
              Hget Hitem Hparse) eq_refl)))).
Defined.

(** X12 on a new profile. *)
Lemma getPrivateKey_first_use_witness :
  storage_operational new_profile /\
  identity_entry new_profile = None /\
  @randomPrivateKey online (draws new_profile) = Ok seed1 /\
  @getPublicKeyAsync online seed1 = Ok public1 /\
  fst (@getPrivateKey online new_profile) = Ok seed1 /\
  identity_entry (snd (@getPrivateKey online new_profile)) =
    Some (@JSON_stringify online (Array_from seed1)) /\
  draws (snd (@getPrivateKey online new_profile)) = S (draws new_profile).
Proof.
  assert (Hop : storage_operational new_profile) by (split; reflexivity).
  assert (Hitem : identity_entry new_profile = None) by reflexivity.
  assert (Hdraw : @randomPrivateKey online (draws new_profile) = Ok seed1) by reflexivity.
  assert (Hpk : @getPublicKeyAsync online seed1 = Ok public1) by reflexivity.
  exact (conj Hop (conj Hitem (conj Hdraw (conj Hpk
           (@getPrivateKey_first_use online new_profile seed1 public1 Hop
              (or_introl Hitem) Hdraw Hpk))))).
Defined.

(** X13 where key derivation is unavailable. *)
Lemma getPrivateKey_rejects_after_storing_witness :
  storage_operational new_profile /\
  identity_entry new_profile = None /\
  @randomPrivateKey underivable (draws new_profile) = Ok seed1 /\
  @getPublicKeyAsync underivable seed1 = Throw (Error "crypto.subtle must be defined") /\
  Forall is_byte seed1 /\
  @json_round_trips underivable seed1 /\
  fst (@getPrivateKey underivable new_profile) =
    Throw (Error "crypto.subtle must be defined") /\
  @getPrivateKey underivable (snd (@getPrivateKey underivable new_profile)) =
    (Ok seed1, snd (@getPrivateKey underivable new_profile)).
Proof.
  assert (Hop : storage_operational new_profile) by (split; reflexivity).
  assert (Hitem : identity_entry new_profile = None) by reflexivity.
  assert (Hdraw : @randomPrivateKey underivable (draws new_profile) = Ok seed1)
    by reflexivity.
  assert (Hpk : @getPublicKeyAsync underivable seed1 =
                Throw (Error "crypto.subtle must be defined")) by reflexivity.
  exact (conj Hop (conj Hitem (conj Hdraw (conj Hpk (conj seed1_bytes
           (conj seed1_round_trips_underivable
              (@getPrivateKey_rejects_after_storing underivable new_profile seed1 _
                 Hop Hitem Hdraw Hpk seed1_bytes seed1_round_trips_underivable))))))).
Defined.

(** X15 for the listing that came with a price of 3. *)
Lemma getForSaleNFTs_prices_witness :
  fst (@getForSaleNFTs stocked new_profile) = Ok [listed ape; listed cat] /\
  In (listed cat) [listed ape; listed cat] /\
  cat !! "price" = Some (JNum 3) /\
  listed cat !! "price" = Some (JNum 10) /\
  listed cat !! "currency_symbol" = Some (JStr "PVL").
Proof.
  assert (Hrun : fst (@getForSaleNFTs stocked new_profile) = Ok [listed ape; listed cat])
    by reflexivity.
  assert (Hin : In (listed cat) [listed ape; listed cat]) by (right; left; reflexivity).
  exact (conj Hrun (conj Hin (conj eq_refl
           (@getForSaleNFTs_prices stocked new_profile _ _ Hrun Hin)))).
Defined.

(** X16 for a 200 answer whose body is not JSON. *)
Lemma getForSaleNFTs_unreadable_body_witness :
  let r := {| status := 200; json := Throw (SyntaxError "Unexpected token <") |} in
  @fetch_outcome garbled (network new_profile) listing_request = Ok r /\
  ok r = true /\
  (exists e, json r = Throw e) /\
  fst (@getForSaleNFTs garbled new_profile) = Ok [].
Proof.
  intros r.
  assert (Hr : @fetch_outcome garbled (network new_profile) listing_request = Ok r)
    by reflexivity.
  assert (Hok : ok r = true) by reflexivity.
  assert (Hbody : exists e, json r = Throw e) by (eexists; reflexivity).
  exact (conj Hr (conj Hok (conj Hbody
           (@getForSaleNFTs_unreadable_body garbled new_profile r Hr Hok
              (or_introl Hbody))))).
Defined.

(** X17 for a server that answers 404. *)
Lemma checkPayment_true_iff_2xx_witness :
  let r := {| status := 404; json := Throw (SyntaxError "Unexpected token") |} in
  [1; 2; 3] <> [] /\
  @fetch_outcome missing (network new_profile)
    (payment_request (decimal (be_value_from 0 (Uint8Array_from [1; 2; 3])))) = Ok r /\
  (fst (@checkPayment missing [1; 2; 3] new_profile) = Ok true <-> 200 <= status r <= 299) /\
  (fst (@checkPayment missing [1; 2; 3] new_profile) = Ok false <-> ~ 200 <= status r <= 299).
Proof.
  intros r.
  assert (Hne : [1; 2; 3] <> @nil Z) by discriminate.
  assert (Hr : @fetch_outcome missing (network new_profile)
                 (payment_request (decimal (be_value_from 0 (Uint8Array_from [1; 2; 3])))) =
               Ok r) by reflexivity.
  exact (conj Hne (conj Hr
           (@checkPayment_true_iff_2xx missing [1; 2; 3] new_profile r Hne Hr))).
Defined.

(** X18 for the empty identifier. *)
Lemma checkPayment_unencodable_witness :
  @encoded_id online [] = Throw (Error "Invalid hex string") /\
  @nil Z = [] /\
  @checkPayment online [] new_profile = (Throw (Error "Invalid hex string"), new_profile) /\
  network (snd (@checkPayment online [] new_profile)) = network new_profile.
Proof.
  assert (Hid : @encoded_id online [] = Throw (Error "Invalid hex string")) by reflexivity.
  exact (conj Hid (@checkPayment_unencodable online [] new_profile _ Hid)).
Defined.

(** X20 for the empty identifier. *)
Lemma buyNFT_failure_sends_nothing_witness :
  fst (@buyNftQuery online "addr1" [] new_profile) = Throw (Error "Invalid hex string") /\
  fst (@buyNFT online "addr1" [] new_profile) = Ok tt /\
  network (snd (@buyNFT online "addr1" [] new_profile)) = network new_profile /\
  last (console (snd (@buyNFT online "addr1" [] new_profile))) =
    Some (ConsoleLog [LExn (Error "Invalid hex string")]).
Proof.
  assert (Hq : fst (@buyNftQuery online "addr1" [] new_profile) =
               Throw (Error "Invalid hex string")) by reflexivity.
  exact (conj Hq (@buyNFT_failure_sends_nothing online "addr1" [] new_profile _ Hq)).
Defined.

(** X22 for two purchases from a new profile. *)
Lemma buyNFT_same_receiver_again_witness :
  let q1 := {| nft_id := "66051"; payment_sender := "addr1";
               nft_receiver := bytesToHex public1 |} in
  let q2 := {| nft_id := "255"; payment_sender := "addr2";
               nft_receiver := bytesToHex public1 |} in
  let s1 := snd (@buyNftQuery online "addr1" [1; 2; 3] new_profile) in
  storage_operational new_profile /\
  fst (@getPrivateKey online new_profile) = Ok seed1 /\
  Forall is_byte seed1 /\
  @json_round_trips online seed1 /\
  @buyNftQuery online "addr1" [1; 2; 3] new_profile = (Ok q1, s1) /\
  fst (@buyNftQuery online "addr2" [255] s1) = Ok q2 /\
  nft_receiver q2 = nft_receiver q1.
Proof.
  intros q1 q2 s1.
  assert (Hop : storage_operational new_profile) by (split; reflexivity).
  assert (Hk : fst (@getPrivateKey online new_profile) = Ok seed1) by reflexivity.
  assert (Hq1 : @buyNftQuery online "addr1" [1; 2; 3] new_profile = (Ok q1, s1))
    by reflexivity.
  assert (Hq2 : fst (@buyNftQuery online "addr2" [255] s1) = Ok q2) by reflexivity.
  exact (conj Hop (conj Hk (conj seed1_bytes (conj seed1_round_trips (conj Hq1 (conj Hq2
           (@buyNFT_same_receiver_again online new_profile s1 "addr1" "addr2"
              [1; 2; 3] [255] seed1 q1 q2 Hop Hk seed1_bytes seed1_round_trips
              Hq1 Hq2))))))).
Defined.
